(** * node_exporter on FreeBSD: the devstat and cpu collectors

    A shallow embedding of [collector/devstat_freebsd.go] (with its cgo
    preamble) and of the cpu collector that follows it in the same source
    listing, and the properties of the two collection entry points.

    Conventions.
    - C and Go integers are [Z]; the only integer arithmetic of the code is
      the loop counters, which stay inside their types.
    - [float64] and C [double] are IEEE 754 binary64 values, computed with
      the executable specification [SpecFloat] of the Standard Library
      ([prec = 53], [emax = 1024]).
    - Go functions run in a small state monad over a [world]: the kernel
      snapshot that the queries read, the log of the external calls made so
      far and the metrics sent on the channel so far.  A run either
      returns or stops abnormally (a Go run-time panic, or a crash inside
      the C helper). *)

From Stdlib Require Import ZArith Lia SpecFloat DecimalString DecimalPos DecimalZ.
From Stdlib.Strings Require Import Byte.
From stdpp Require Import base list strings.

(** ** Platform *)

(** The code reads "native" integers: [unsafe.Sizeof(int(0))] bytes in the
    byte order of the machine.  FreeBSD runs on 32- and 64-bit machines of
    both byte orders, so both are parameters of the model. *)
Inductive data_model := ILP32 | LP64.
Inductive byte_order := LittleEndian | BigEndian.

Record platform := Platform { model : data_model; endian : byte_order }.

(** [unsafe.Sizeof(int(0))]; C [long] has the same size in both models. *)
Definition sizeof_int (p : platform) : nat :=
  match model p with ILP32 => 4 | LP64 => 8 end.

(** ** Raw bytes and native integers *)

Fixpoint le_unsigned (bs : list byte) : Z :=
  match bs with
  | [] => 0
  | b :: bs' => Z.of_N (Byte.to_N b) + 256 * le_unsigned bs'
  end%Z.

Definition native_unsigned (p : platform) (bs : list byte) : Z :=
  match endian p with
  | LittleEndian => le_unsigned bs
  | BigEndian => le_unsigned (rev bs)
  end.

(** Two's complement reading of [length bs] bytes. *)
Definition native_signed (p : platform) (bs : list byte) : Z :=
  let u := native_unsigned p bs in
  let w := (8 * Z.of_nat (length bs))%Z in
  if (u <? 2 ^ (w - 1))%Z then u else (u - 2 ^ w)%Z.

(** A Go [[]byte] as the unsafe code sees it: the elements of the slice,
    and the memory that follows its last element ([beyond s k] is the byte
    [k] places past the end).  Bounds-checked Go never looks at [beyond];
    a cast through [unsafe.Pointer] can. *)
Record slice := Slice { elems : list byte; beyond : nat → byte }.

Definition byte_at (s : slice) (off : nat) : byte :=
  match elems s !! off with
  | Some b => b
  | None => beyond s (off - length (elems s))
  end.

Definition read_memory (s : slice) (off n : nat) : list byte :=
  map (byte_at s) (seq off n).

(** ** Floating point *)

Definition float64 := spec_float.

(** Go's conversion [float64(n)] of an integer: nearest binary64, ties to
    even. *)
Definition float64_of_int (n : Z) : float64 := binary_normalize 53 1024 n 0 false.

(** Go's [x / y] on [float64]: IEEE division; dividing by zero gives an
    infinity or a NaN, never a panic. *)
Definition float64_div (x y : float64) : float64 := SFdiv 53 1024 x y.

(** [x >= 0] in IEEE comparison (false on NaN). *)
Definition float64_nonneg (x : float64) : bool := SFleb (S754_zero false) x.

(** ** Abnormal termination *)

Inductive outcome (A : Type) :=
| Returned (a : A)
| Panicked (msg : string).
Arguments Returned {A} a.
Arguments Panicked {A} msg.

#[global] Instance outcome_ret : MRet outcome := λ A a, Returned a.
#[global] Instance outcome_bind : MBind outcome := λ A B f m,
  match m with
  | Returned a => f a
  | Panicked msg => Panicked msg
  end.

(** Go's index expression [l[i]] with [i] of type [int]. *)
Definition index {A} (l : list A) (i : Z) : outcome A :=
  if (i <? 0)%Z then Panicked "index out of range"
  else match l !! Z.to_nat i with
       | Some x => Returned x
       | None => Panicked "index out of range"
       end.

(** Go's [error] values: [errors.New] strings and the errno of a failed
    system call. *)
Inductive error :=
| errorString (s : string)
| Errno (e : Z).

(** ** cpu collector: the decoder [getCPUTimes] *)

Record clockinfo := {
  hz : Z;      (* clock frequency *)
  tick : Z;    (* micro-seconds per hz tick *)
  spare : Z;
  stathz : Z;  (* statistics clock frequency *)
  profhz : Z   (* profiling clock frequency *)
}.

Record cputime := {
  user : float64;
  nice : float64;
  sys : float64;
  intr : float64;
  idle : float64
}.

Definition set_user (x : float64) (c : cputime) : cputime :=
  {| user := x; nice := nice c; sys := sys c; intr := intr c; idle := idle c |}.
Definition set_nice (x : float64) (c : cputime) : cputime :=
  {| user := user c; nice := x; sys := sys c; intr := intr c; idle := idle c |}.
Definition set_sys (x : float64) (c : cputime) : cputime :=
  {| user := user c; nice := nice c; sys := x; intr := intr c; idle := idle c |}.
Definition set_intr (x : float64) (c : cputime) : cputime :=
  {| user := user c; nice := nice c; sys := sys c; intr := x; idle := idle c |}.
Definition set_idle (x : float64) (c : cputime) : cputime :=
  {| user := user c; nice := nice c; sys := sys c; intr := intr c; idle := x |}.

(** The zero value of [cputime], as [make] fills a new slice. *)
Definition cputime_zero : cputime :=
  {| user := S754_zero false; nice := S754_zero false; sys := S754_zero false;
     intr := S754_zero false; idle := S754_zero false |}.

(** [const states = 5] *)
Definition states : nat := 5.

(** An [int32] field of a C struct at byte offset [off]. *)
Definition load_int32 (p : platform) (s : slice) (off : nat) : Z :=
  native_signed p (read_memory s off 4).

(** The load of [clock] through [unsafe.Pointer(&clockb[0])] cast to a
    [clockinfo] pointer: the index expression [clockb[0]] is bounds-checked,
    the 20-byte load through the pointer is not. *)
Definition load_clockinfo (p : platform) (clockb : slice) : outcome clockinfo :=
  match elems clockb with
  | [] => Panicked "index out of range [0] with length 0"
  | _ :: _ =>
      Returned {| hz := load_int32 p clockb 0;
                  tick := load_int32 p clockb 4;
                  spare := load_int32 p clockb 8;
                  stathz := load_int32 p clockb 12;
                  profhz := load_int32 p clockb 16 |}
  end.

(** The conversion frequency: [stathz] when positive, else [hz]. *)
Definition cpufreq (clock : clockinfo) : float64 :=
  if (0 <? stathz clock)%Z then float64_of_int (stathz clock)
  else float64_of_int (hz clock).

(** The load of [t] through [unsafe.Pointer(&cpb[0])] cast to an [int]
    pointer, reached only when [cpb] holds at least one whole [int]. *)
Definition load_int (p : platform) (cpb : list byte) : Z :=
  native_signed p (take (sizeof_int p) cpb).

(** The first loop of [getCPUTimes]:
    [for len(cpb) >= sizeof(int) { times = append(times, float64(t)/cpufreq); cpb = cpb[sizeof(int):] }].
    Every iteration shortens [cpb], so [length cpb] iterations of fuel are
    never used up (lemma [convert_loop_fuel]). *)
Fixpoint convert_loop (p : platform) (freq : float64) (fuel : nat)
    (cpb : list byte) (times : list float64) : list float64 :=
  match fuel with
  | O => times
  | S fuel' =>
      if (sizeof_int p <=? length cpb)%nat then
        let t := load_int p cpb in
        convert_loop p freq fuel' (drop (sizeof_int p) cpb)
                     (times ++ [float64_div (float64_of_int t) freq])
      else times
  end.

(** One iteration of the second loop: [cpu := &cpus[i/states]] and the five
    field assignments, each of them bounds-checked. *)
Definition group_step (times : list float64) (i : nat) (cpus : list cputime)
    : outcome (list cputime) :=
  let k := (i / states)%nat in
  _ ← index cpus (Z.of_nat k);
  x ← index times (Z.of_nat i);       let cpus := alter (set_user x) k cpus in
  x ← index times (Z.of_nat (i + 1)); let cpus := alter (set_nice x) k cpus in
  x ← index times (Z.of_nat (i + 2)); let cpus := alter (set_sys x) k cpus in
  x ← index times (Z.of_nat (i + 3)); let cpus := alter (set_intr x) k cpus in
  x ← index times (Z.of_nat (i + 4)); let cpus := alter (set_idle x) k cpus in
  mret cpus.

(** [for i := 0; i < len(times); i += states { ... }] *)
Fixpoint group_loop (fuel : nat) (times : list float64) (i : nat)
    (cpus : list cputime) : outcome (list cputime) :=
  match fuel with
  | O => Returned cpus
  | S fuel' =>
      if (i <? length times)%nat then
        cpus' ← group_step times i cpus;
        group_loop fuel' times (i + states) cpus'
      else Returned cpus
  end.

(** Everything in [getCPUTimes] after the two queries. *)
Definition decode_times (p : platform) (clock : clockinfo) (cpb : list byte)
    : list float64 :=
  convert_loop p (cpufreq clock) (length cpb) cpb [].

Definition decode_cpus (times : list float64) : outcome (list cputime) :=
  let cpus := replicate (length times / states) cputime_zero in
  group_loop (length times) times 0 cpus.

(** ** The world of a collection cycle *)

(** C [long double] values are kept as sign, mantissa and exponent without
    a format bound: whatever the format of the platform, the conversions
    below round or truncate the exact value. *)
Definition long_double := spec_float.

(** What libdevstat holds for one device once [devstat_getdevs] has filled
    the device list: its name and unit, and the totals that
    [devstat_compute_statistics] (called with elapsed time 1.0) writes
    through the thirteen output pointers. *)
Record devstat := {
  device_name : string;
  unit_number : Z;
  total_bytes_read : Z;
  total_bytes_write : Z;
  total_bytes_free : Z;
  total_transfers_other : Z;
  total_transfers_read : Z;
  total_transfers_write : Z;
  total_transfers_free : Z;
  total_duration_other : long_double;
  total_duration_read : long_double;
  total_duration_write : long_double;
  total_duration_free : long_double;
  total_busy_time : long_double;
  total_blocks : Z
}.

(** The state that the queries read.  [getdevs = None] is a failing
    [devstat_getdevs] (return value -1); [Some devs] fills [dinfo] with
    [numdevs = length devs] devices.  [sysctl name] is the answer of the
    kernel to [unix.SysctlRaw(name)].

    One record serves a whole cycle: every [calloc] of the cycle has the
    outcome [calloc_fails], and every [devstat_getdevs] of the cycle sees
    the snapshot [getdevs].  The C helper [_get_stats] calls both afresh
    for each device and checks neither; a cycle in which they succeed for
    the enumeration and fail for a later device is outside this model, and
    the statements below are about cycles on one snapshot. *)
Record environment := {
  calloc_fails : bool;
  getdevs : option (list devstat);
  sysctl : string → error + slice
}.

Inductive event :=
| call_get_ndevs
| call_get_stats (i : Z)
| call_SysctlRaw (name : string).

Inductive ValueType := CounterValue | GaugeValue | UntypedValue.

(** [prometheus.NewDesc(fqName, help, variableLabels, nil)] *)
Record Desc := NewDesc {
  fqName : string;
  help : string;
  variableLabels : list string
}.

(** A constant metric as it is sent on the channel. *)
Record Metric := {
  metric_desc : Desc;
  metric_type : ValueType;
  metric_value : float64;
  labelValues : list string
}.

Record world := World {
  kernel : environment;
  calls : list event;
  sent : list Metric
}.

Definition M (A : Type) : Type := world → outcome A * world.

#[global] Instance M_ret : MRet M := λ A a w, (Returned a, w).
#[global] Instance M_bind : MBind M := λ A B f m w,
  match m w with
  | (Returned a, w') => f a w'
  | (Panicked msg, w') => (Panicked msg, w')
  end.

Definition lift {A} (o : outcome A) : M A := λ w, (o, w).

Definition ask : M environment := λ w, (Returned (kernel w), w).

Definition log (e : event) : M unit := λ w,
  (Returned tt, World (kernel w) (calls w ++ [e]) (sent w)).

(** [ch <- m] *)
Definition send (m : Metric) : M unit := λ w,
  (Returned tt, World (kernel w) (calls w) (sent w ++ [m])).

(** ** Metric descriptors *)

(** [prometheus.BuildFQName] of the client library. *)
Definition BuildFQName (namespace subsystem name : string) : string :=
  if String.eqb name "" then ""
  else if negb (String.eqb namespace "") && negb (String.eqb subsystem "")
       then namespace +:+ "_" +:+ subsystem +:+ "_" +:+ name
  else if negb (String.eqb namespace "") then namespace +:+ "_" +:+ name
  else if negb (String.eqb subsystem "") then subsystem +:+ "_" +:+ name
  else name.

(** Modelled from the spec: the collector package's [typedDesc], whose
    declaration is not part of the source file.  It couples the identity of
    a metric (name, help text, ordered label names) to its numeric kind. *)
Record typedDesc := TypedDesc { desc : Desc; valueType : ValueType }.

(** Modelled from the spec: the method [mustNewConstMetric] of [typedDesc],
    whose declaration is not part of the source file.  Given a value and
    label values it produces one sample; a label-value count different from
    the declared label arity is a programming error, a panic.  No other
    validation is made and the value is passed through as given. *)
Definition mustNewConstMetric (d : typedDesc) (value : float64)
    (labels : list string) : outcome Metric :=
  if (length labels =? length (variableLabels (desc d)))%nat then
    Returned {| metric_desc := desc d; metric_type := valueType d;
                metric_value := value; labelValues := labels |}
  else Panicked "inconsistent label cardinality".

(** [ch <- d.mustNewConstMetric(value, labels...)] *)
Definition emit (d : typedDesc) (value : float64) (labels : list string) : M unit :=
  m ← lift (mustNewConstMetric d value labels);
  send m.

(** [strconv.Itoa], and the [%d] verb of [fmt.Sprintf]. *)
Definition Itoa (n : Z) : string := NilZero.string_of_int (Z.to_int n).

(** ** devstat collector: the cgo preamble *)

Module Bytes.
Record t := make { read : Z; write : Z; free : Z }.
End Bytes.

Module Transfers.
Record t := make { other : Z; read : Z; write : Z; free : Z }.
End Transfers.

Module Duration.
Record t := make { other : float64; read : float64; write : float64; free : float64 }.
End Duration.

Module Stats.
Record t := make {
  device : string;
  unit : Z;
  bytes : Bytes.t;
  transfers : Transfers.t;
  duration : Duration.t;
  busyTime : Z;
  blocks : Z
}.
End Stats.

(** The C assignment of a [long double] to a [double]: the nearest
    binary64. *)
Definition double_of_long_double (x : long_double) : float64 :=
  match x with
  | S754_finite s m e => binary_round 53 1024 s m e
  | _ => x
  end.

(** The C assignment of a [long double] to a [long]: truncation toward
    zero.  A value that does not fit is undefined in C; the model takes what
    the x86 conversion instructions store, the most negative [long]. *)
Definition long_of_long_double (p : platform) (x : long_double) : Z :=
  let w := (8 * Z.of_nat (sizeof_int p))%Z in
  let indefinite := (- 2 ^ (w - 1))%Z in
  match x with
  | S754_zero _ => 0%Z
  | S754_finite s m e =>
      let a := if (0 <=? e)%Z then (Z.pos m * 2 ^ e)%Z
               else (Z.pos m / 2 ^ (- e))%Z in
      let z := if s then (- a)%Z else a in
      if (- 2 ^ (w - 1) <=? z)%Z && (z <? 2 ^ (w - 1))%Z then z else indefinite
  | _ => indefinite
  end.

(** [int _get_ndevs()] *)
Definition _get_ndevs : M Z :=
  _ ← log call_get_ndevs;
  k ← ask;
  if calloc_fails k then mret (-2)%Z
  else match getdevs k with
       | None => mret (-1)%Z
       | Some devs => mret (Z.of_nat (length devs))
       end.

(** The field-by-field copy at the end of [_get_stats]: [strcpy] of the
    name, the unit number, and the thirteen totals, the durations narrowed
    to [double] and the busy time to [long]. *)
Definition device_stats (p : platform) (d : devstat) : Stats.t :=
  {| Stats.device := device_name d;
     Stats.unit := unit_number d;
     Stats.bytes :=
       {| Bytes.read := total_bytes_read d;
          Bytes.write := total_bytes_write d;
          Bytes.free := total_bytes_free d |};
     Stats.transfers :=
       {| Transfers.other := total_transfers_other d;
          Transfers.read := total_transfers_read d;
          Transfers.write := total_transfers_write d;
          Transfers.free := total_transfers_free d |};
     Stats.duration :=
       {| Duration.other := double_of_long_double (total_duration_other d);
          Duration.read := double_of_long_double (total_duration_read d);
          Duration.write := double_of_long_double (total_duration_write d);
          Duration.free := double_of_long_double (total_duration_free d) |};
     Stats.busyTime := long_of_long_double p (total_busy_time d);
     Stats.blocks := total_blocks d |}.

(** [Stats _get_stats(int i)].  The helper checks neither [calloc] nor
    [devstat_getdevs] nor the index: where C dereferences a null or
    out-of-range pointer the model stops abnormally. *)
Definition _get_stats (p : platform) (i : Z) : M Stats.t :=
  _ ← log (call_get_stats i);
  k ← ask;
  if calloc_fails k then lift (Panicked "null devinfo")
  else match getdevs k with
       | None => lift (Panicked "null device list")
       | Some devs =>
           d ← lift (index devs i);
           mret (device_stats p d)
       end.

(** ** devstat collector: the Go side *)

Definition devstatSubsystem : string := "devstat".

Record devstatCollector := {
  bytes : typedDesc;
  bytes_total : typedDesc;
  transfers : typedDesc;
  duration : typedDesc;
  busyTime : typedDesc;
  blocks : typedDesc
}.

(** The constructor leaves the field [bytes_total] at its zero value (a nil
    descriptor in Go); no code reads it, and the model puts an empty
    descriptor there. *)
Definition typedDesc_zero : typedDesc :=
  TypedDesc (NewDesc "" "" []) UntypedValue.

(** [NewDevstatCollector]; the package constant [Namespace] is declared in
    another file of the package and is a parameter here. *)
Definition NewDevstatCollector (Namespace : string) : devstatCollector * option error :=
  ({| bytes := TypedDesc (NewDesc
        (BuildFQName Namespace devstatSubsystem "bytes_total")
        "The total number of bytes in transactions."
        ["device"; "type"]) CounterValue;
      bytes_total := typedDesc_zero;
      transfers := TypedDesc (NewDesc
        (BuildFQName Namespace devstatSubsystem "transfers_total")
        "The total number of transactions."
        ["device"; "type"]) CounterValue;
      duration := TypedDesc (NewDesc
        (BuildFQName Namespace devstatSubsystem "duration_seconds_total")
        "The total duration of transactions in seconds."
        ["device"; "type"]) CounterValue;
      busyTime := TypedDesc (NewDesc
        (BuildFQName Namespace devstatSubsystem "busy_time_seconds_total")
        "Total time the device had one or more transactions outstanding in seconds."
        ["device"]) CounterValue;
      blocks := TypedDesc (NewDesc
        (BuildFQName Namespace devstatSubsystem "blocks_transferred_total")
        "The total number of blocks transferred."
        ["device"]) CounterValue |}, None).

(** The body of the loop of [Update] for device index [i]. *)
Definition devstat_step (p : platform) (c : devstatCollector) (i : Z) : M unit :=
  stats ← _get_stats p i;
  let device := Stats.device stats +:+ Itoa (Stats.unit stats) in
  _ ← emit (bytes c) (float64_of_int (Bytes.read (Stats.bytes stats))) [device; "read"];
  _ ← emit (bytes c) (float64_of_int (Bytes.write (Stats.bytes stats))) [device; "write"];
  _ ← emit (transfers c) (float64_of_int (Transfers.other (Stats.transfers stats))) [device; "other"];
  _ ← emit (transfers c) (float64_of_int (Transfers.read (Stats.transfers stats))) [device; "read"];
  _ ← emit (transfers c) (float64_of_int (Transfers.write (Stats.transfers stats))) [device; "write"];
  _ ← emit (duration c) (Duration.other (Stats.duration stats)) [device; "other"];
  _ ← emit (duration c) (Duration.read (Stats.duration stats)) [device; "read"];
  _ ← emit (duration c) (Duration.write (Stats.duration stats)) [device; "write"];
  _ ← emit (busyTime c) (float64_of_int (Stats.busyTime stats)) [device];
  emit (blocks c) (float64_of_int (Stats.blocks stats)) [device].

(** [for i := C.int(0); i < count; i++ { ... }] *)
Fixpoint devstat_loop (p : platform) (c : devstatCollector) (fuel : nat)
    (count i : Z) : M unit :=
  match fuel with
  | O => mret tt
  | S fuel' =>
      if (i <? count)%Z then
        _ ← devstat_step p c i;
        devstat_loop p c fuel' count (i + 1)%Z
      else mret tt
  end.

(** [func (c *devstatCollector) Update(ch chan<- prometheus.Metric) (err error)];
    the named result [err] is never assigned, so the final [return err]
    returns nil. *)
Definition devstatCollector_Update (p : platform) (c : devstatCollector)
    : M (option error) :=
  count ← _get_ndevs;
  if (count =? -1)%Z then mret (Some (errorString "devstat_getdevs() failed"))
  else if (count =? -2)%Z then mret (Some (errorString "calloc() failed"))
  else
    _ ← devstat_loop p c (Z.to_nat count) count 0%Z;
    mret None.

(** ** cpu collector: the Go side *)

(** [unix.SysctlRaw(name)]: the bytes and a nil error, or a nil slice and
    the error. *)
Definition nil_slice : slice := Slice [] (λ _, x00).

Definition SysctlRaw (name : string) : M (slice * option error) :=
  _ ← log (call_SysctlRaw name);
  k ← ask;
  match sysctl k name with
  | inl e => mret (nil_slice, Some e)
  | inr s => mret (s, None)
  end.

(** [func getCPUTimes() ([]cputime, error)] *)
Definition getCPUTimes (p : platform) : M (list cputime * option error) :=
  '(clockb, err) ← SysctlRaw "kern.clockrate";
  match err with
  | Some e => mret ([], Some e)
  | None =>
      clock ← lift (load_clockinfo p clockb);
      '(cpb, err) ← SysctlRaw "kern.cp_times";
      match err with
      | Some e => mret ([], Some e)
      | None =>
          let times := decode_times p clock (elems cpb) in
          cpus ← lift (decode_cpus times);
          mret (cpus, None)
      end
  end.

(** The source declares the field [cpu] as a [*prometheus.CounterVec], but
    [NewStatCollector] stores a [typedDesc] in it and [Update] calls
    [mustNewConstMetric] on it; the model gives it the type of its uses. *)
Record statCollector := { cpu : typedDesc }.

(** [NewStatCollector] *)
Definition NewStatCollector (Namespace : string) : statCollector * option error :=
  ({| cpu := TypedDesc (NewDesc
        (BuildFQName Namespace "cpu" "seconds_total")
        "Seconds the CPU spent in each mode."
        ["cpu"; "mode"]) CounterValue |}, None).

(** The loop body of [statCollector.Update] does not compile as it
    stands: it names a variable [base_idx] and C constants [CP_USER] ..
    [CP_IDLE] that the source file does not declare, and converts a
    [cputime] struct to [float64].  They are parameters here, and nothing
    below is stated about a run that enters the loop body: the statements
    about [statCollector_Update] are about the paths through the decoder
    that end before it (an error, a panic, no CPU) and hold for every value
    of the parameters. *)
Record undeclared := {
  base_idx : Z;
  CP_USER : Z;
  CP_NICE : Z;
  CP_SYS : Z;
  CP_INTR : Z;
  CP_IDLE : Z;
  float64_of_cputime : cputime → float64
}.

Section StatCollector.
Variable x : undeclared.
Variable p : platform.
Variable c : statCollector.

(** One sample: [ch <- c.cpu.mustNewConstMetric(float64(cpuTimes[base_idx+k]), strconv.Itoa(cpu), mode)] *)
Definition stat_sample (cpuTimes : list cputime) (k : Z) (n : nat)
    (mode : string) : M unit :=
  t ← lift (index cpuTimes (base_idx x + k));
  emit (cpu c) (float64_of_cputime x t) [Itoa (Z.of_nat n); mode].

Definition stat_step (cpuTimes : list cputime) (n : nat) : M unit :=
  _ ← stat_sample cpuTimes (CP_USER x) n "user";
  _ ← stat_sample cpuTimes (CP_NICE x) n "nice";
  _ ← stat_sample cpuTimes (CP_SYS x) n "system";
  _ ← stat_sample cpuTimes (CP_INTR x) n "interrupt";
  stat_sample cpuTimes (CP_IDLE x) n "idle".

(** [for cpu, t := range cpuTimes { ... }]: [rest] is what remains to be
    ranged over, [n] the index reached. *)
Fixpoint stat_range (cpuTimes rest : list cputime) (n : nat) : M unit :=
  match rest with
  | [] => mret tt
  | _ :: rest' =>
      _ ← stat_step cpuTimes n;
      stat_range cpuTimes rest' (S n)
  end.

(** [func (c *statCollector) Update(ch chan<- prometheus.Metric) (err error)] *)
Definition statCollector_Update : M (option error) :=
  '(cpuTimes, err) ← getCPUTimes p;
  match err with
  | Some e => mret (Some e)
  | None =>
      _ ← stat_range cpuTimes cpuTimes 0;
      mret None
  end.
End StatCollector.

(** ** Vocabulary of the statements *)

(** The [k]-th whole native integer of a raw blob. *)
Definition int_at (p : platform) (cpb : list byte) (k : nat) : Z :=
  load_int p (drop (k * sizeof_int p) cpb).

(** Its conversion to seconds at frequency [freq]. *)
Definition seconds_at (p : platform) (freq : float64) (cpb : list byte)
    (k : nat) : float64 :=
  float64_div (float64_of_int (int_at p cpb k)) freq.

(** The record made of positions [5 * j .. 5 * j + 4] of [times]. *)
Definition cputime_at (times : list float64) (j : nat) : cputime :=
  {| user := nth (states * j) times S754_nan;
     nice := nth (states * j + 1) times S754_nan;
     sys := nth (states * j + 2) times S754_nan;
     intr := nth (states * j + 3) times S754_nan;
     idle := nth (states * j + 4) times S754_nan |}.

(** The record of CPU [j] read off the raw blob. *)
Definition cputime_of (p : platform) (freq : float64) (cpb : list byte)
    (j : nat) : cputime :=
  {| user := seconds_at p freq cpb (states * j);
     nice := seconds_at p freq cpb (states * j + 1);
     sys := seconds_at p freq cpb (states * j + 2);
     intr := seconds_at p freq cpb (states * j + 3);
     idle := seconds_at p freq cpb (states * j + 4) |}.

(** The world after some more external calls. *)
Definition logged (w : world) (es : list event) : world :=
  World (kernel w) (calls w ++ es) (sent w).

Definition extend (w : world) (es : list event) (ms : list Metric) : world :=
  World (kernel w) (calls w ++ es) (sent w ++ ms).

(** The sample that [mustNewConstMetric] builds when the label count is
    right. *)
Definition sample (d : typedDesc) (v : float64) (labels : list string) : Metric :=
  {| metric_desc := desc d; metric_type := valueType d;
     metric_value := v; labelValues := labels |}.

(** The samples of one device, in the order of the ten send statements of
    [Update]. *)
Definition device_samples (c : devstatCollector) (stats : Stats.t) : list Metric :=
  let device := Stats.device stats +:+ Itoa (Stats.unit stats) in
  [ sample (bytes c) (float64_of_int (Bytes.read (Stats.bytes stats))) [device; "read"];
    sample (bytes c) (float64_of_int (Bytes.write (Stats.bytes stats))) [device; "write"];
    sample (transfers c) (float64_of_int (Transfers.other (Stats.transfers stats))) [device; "other"];
    sample (transfers c) (float64_of_int (Transfers.read (Stats.transfers stats))) [device; "read"];
    sample (transfers c) (float64_of_int (Transfers.write (Stats.transfers stats))) [device; "write"];
    sample (duration c) (Duration.other (Stats.duration stats)) [device; "other"];
    sample (duration c) (Duration.read (Stats.duration stats)) [device; "read"];
    sample (duration c) (Duration.write (Stats.duration stats)) [device; "write"];
    sample (busyTime c) (float64_of_int (Stats.busyTime stats)) [device];
    sample (blocks c) (float64_of_int (Stats.blocks stats)) [device] ].

(** The value of the [type] label of a sample, if it has one. *)
Definition type_label (m : Metric) : option string := labelValues m !! 1.

(** The same record with other "free" counters. *)
Definition with_free (stats : Stats.t) (b t : Z) (d : float64) : Stats.t :=
  {| Stats.device := Stats.device stats;
     Stats.unit := Stats.unit stats;
     Stats.bytes :=
       {| Bytes.read := Bytes.read (Stats.bytes stats);
          Bytes.write := Bytes.write (Stats.bytes stats);
          Bytes.free := b |};
     Stats.transfers :=
       {| Transfers.other := Transfers.other (Stats.transfers stats);
          Transfers.read := Transfers.read (Stats.transfers stats);
          Transfers.write := Transfers.write (Stats.transfers stats);
          Transfers.free := t |};
     Stats.duration :=
       {| Duration.other := Duration.other (Stats.duration stats);
          Duration.read := Duration.read (Stats.duration stats);
          Duration.write := Duration.write (Stats.duration stats);
          Duration.free := d |};
     Stats.busyTime := Stats.busyTime stats;
     Stats.blocks := Stats.blocks stats |}.

(** The per-device queries for the indices [j, j + 1, ..., j + n - 1]. *)
Definition stats_calls (j n : nat) : list event :=
  map (λ i, call_get_stats (Z.of_nat i)) (seq j n).

(** ** Concrete kernels *)

Definition amd64 : platform := Platform LP64 LittleEndian.

Definition byte_of (z : Z) : byte :=
  default x00 (Byte.of_N (Z.to_N (z `mod` 256))).

(** [n] bytes of [z], least significant first. *)
Definition encode_le (n : nat) (z : Z) : list byte :=
  map (λ k, byte_of (z / 256 ^ Z.of_nat k)) (seq 0 n).

(** A kernel that answers the two sysctl names of the cpu collector with
    the given bytes (followed in memory by zero bytes), and has the given
    devices. *)
Definition kernel_of (clockb cpb : list byte) (devs : list devstat) : environment :=
  {| calloc_fails := false;
     getdevs := Some devs;
     sysctl := λ name,
       if String.eqb name "kern.clockrate" then inr (Slice clockb (λ _, x00))
       else if String.eqb name "kern.cp_times" then inr (Slice cpb (λ _, x00))
       else inl (Errno 2) |}.

Definition boot (k : environment) : world := World k [] [].

(** [struct clockinfo] of a typical amd64 machine: hz 1000, tick 1000,
    stathz 127, profhz 8128. *)
Definition clockrate_amd64 : list byte :=
  encode_le 4 1000 ++ encode_le 4 1000 ++ encode_le 4 0 ++ encode_le 4 127
  ++ encode_le 4 8128.

Definition clockinfo_amd64 : clockinfo :=
  {| hz := 1000; tick := 1000; spare := 0; stathz := 127; profhz := 8128 |}.

(** One CPU with tick counts 1, 2, 3, 4, 5. *)
Definition one_cpu : list byte :=
  encode_le 8 1 ++ encode_le 8 2 ++ encode_le 8 3 ++ encode_le 8 4 ++ encode_le 8 5.

(** The same 40 bytes and one more. *)
Definition world_41_bytes : world :=
  boot (kernel_of clockrate_amd64 (one_cpu ++ [x01]) []).

(** A clock-rate record whose two frequencies are zero. *)
Definition world_zero_hz : world :=
  boot (kernel_of (encode_le 4 0 ++ encode_le 4 1000 ++ encode_le 4 0
                   ++ encode_le 4 0 ++ encode_le 4 8128) one_cpu []).

(** A tick table of 40 bytes [0xff]: five times the integer -1. *)
Definition world_negative_ticks : world :=
  boot (kernel_of clockrate_amd64 (replicate 40 xff) []).

(** A clock-rate answer of 16 bytes: the last field is missing. *)
Definition world_short_clockrate : world :=
  boot (kernel_of (take 16 clockrate_amd64) one_cpu []).

(** Two successful queries that return no byte at all. *)
Definition world_empty_answers : world := boot (kernel_of [] [] []).


(** hz 120 and no statistics clock. *)
Definition world_hz_120 : world :=
  boot (kernel_of (encode_le 4 120 ++ encode_le 4 8333 ++ encode_le 4 0
                   ++ encode_le 4 0 ++ encode_le 4 960) one_cpu []).

Definition clockinfo_hz_120 : clockinfo :=
  {| hz := 120; tick := 8333; spare := 0; stathz := 0; profhz := 960 |}.

(** A failing [kern.clockrate] query. *)
Definition world_sysctl_fails : world :=
  boot {| calloc_fails := false; getdevs := Some [];
          sysctl := λ _, inl (Errno 2) |}.

Definition disk (name : string) (unit : Z) : devstat :=
  {| device_name := name; unit_number := unit;
     total_bytes_read := 4096; total_bytes_write := 8192; total_bytes_free := 512;
     total_transfers_other := 1; total_transfers_read := 2;
     total_transfers_write := 3; total_transfers_free := 4;
     total_duration_other := S754_zero false;
     total_duration_read := S754_finite false 3 (-1);
     total_duration_write := S754_finite false 5 (-2);
     total_duration_free := S754_finite false 1 (-3);
     total_busy_time := S754_finite false 7 (-1);
     total_blocks := 24 |}.

Definition world_three_disks : world :=
  boot (kernel_of [] [] [disk "ada" 0; disk "ada" 1; disk "cd" 0]).

Definition world_getdevs_fails : world :=
  boot {| calloc_fails := false; getdevs := None; sysctl := λ _, inl (Errno 2) |}.

Definition world_calloc_fails : world :=
  boot {| calloc_fails := true; getdevs := Some [disk "ada" 0];
          sysctl := λ _, inl (Errno 2) |}.

(** FreeBSD's values of the names that [statCollector.Update] leaves
    undeclared, with the [user] field as the value of a record. *)
Definition freebsd_names : undeclared :=
  {| base_idx := 0; CP_USER := 0; CP_NICE := 1; CP_SYS := 2; CP_INTR := 3;
     CP_IDLE := 4; float64_of_cputime := user |}.

(** ** Vocabulary of the further properties *)

(** [n] bytes of [z] in the byte order of the platform, as the kernel
    stores an integer. *)
Definition encode_native (p : platform) (n : nat) (z : Z) : list byte :=
  match endian p with
  | LittleEndian => encode_le n z
  | BigEndian => rev (encode_le n z)
  end.

(** A table of native integers, one after the other. *)
Definition encode_table (p : platform) (ticks : list Z) : list byte :=
  flat_map (encode_native p (sizeof_int p)) ticks.

(** The values that fit a signed integer of [n] bytes. *)
Definition fits_signed (n : nat) (z : Z) : Prop :=
  (- 2 ^ (8 * Z.of_nat n - 1) ≤ z < 2 ^ (8 * Z.of_nat n - 1))%Z.

(** The record of CPU [j] read off a list of tick counts. *)
Definition cputime_of_ticks (freq : float64) (ticks : list Z) (j : nat) : cputime :=
  {| user := float64_div (float64_of_int (nth (states * j) ticks 0%Z)) freq;
     nice := float64_div (float64_of_int (nth (states * j + 1) ticks 0%Z)) freq;
     sys := float64_div (float64_of_int (nth (states * j + 2) ticks 0%Z)) freq;
     intr := float64_div (float64_of_int (nth (states * j + 3) ticks 0%Z)) freq;
     idle := float64_div (float64_of_int (nth (states * j + 4) ticks 0%Z)) freq |}.

(** The device label that [Update] builds with [fmt.Sprintf("%s%d", ...)]. *)
Definition device_label (d : devstat) : string :=
  device_name d +:+ Itoa (unit_number d).

(** What identifies a sample for a reader of the channel: its descriptor
    and its label values. *)
Definition identity (m : Metric) : Desc * list string :=
  (metric_desc m, labelValues m).



(** ** More concrete kernels *)

(** A well-formed clock rate and a failing [kern.cp_times] query. *)
Definition world_cp_times_fails : world :=
  boot {| calloc_fails := false; getdevs := Some [];
          sysctl := λ name,
            if String.eqb name "kern.clockrate"
            then inr (Slice clockrate_amd64 (λ _, x00))
            else inl (Errno 12) |}.

(** Six whole integers: one group of five and one integer more. *)
Definition world_six_integers : world :=
  boot (kernel_of clockrate_amd64 (one_cpu ++ encode_le 8 6) []).

(** Five CPUs with tick counts 1 .. 25. *)
Definition five_cpus_ticks : list Z := map Z.of_nat (seq 1 25).

Definition world_five_cpus : world :=
  boot (kernel_of clockrate_amd64 (encode_table amd64 five_cpus_ticks) []).

(** ** Vocabulary of the statement on repeated collection *)









(** * Properties *)

(** ** What the decoder computes, position by position *)

Lemma sizeof_int_pos p : 0 < sizeof_int p.
Proof. unfold sizeof_int. destruct (model p); lia. Qed.

(** The first loop leaves by its guard: with [length cpb] iterations
    allowed (or more) it converts every whole integer of the blob, in
    order, and nothing else. *)
Lemma convert_loop_fuel p freq fuel cpb times :
  length cpb ≤ fuel →
  convert_loop p freq fuel cpb times =
  times ++ map (seconds_at p freq cpb) (seq 0 (length cpb / sizeof_int p)).
Proof.
  pose proof (sizeof_int_pos p) as Hs.
  revert cpb times. induction fuel as [|fuel IH]; intros cpb times Hlen.
  - destruct cpb; simpl in Hlen; [|lia].
    simpl. rewrite Nat.Div0.div_0_l. simpl. by rewrite app_nil_r.
  - simpl. destruct (sizeof_int p <=? length cpb) eqn:Hguard.
    + apply Nat.leb_le in Hguard.
      rewrite IH by (rewrite length_drop; lia).
      rewrite length_drop.
      replace (length cpb / sizeof_int p)
        with (S ((length cpb - sizeof_int p) / sizeof_int p)).
      2:{ replace (length cpb) with ((length cpb - sizeof_int p) + 1 * sizeof_int p) at 2 by lia.
          rewrite Nat.div_add by lia. lia. }
      rewrite <- cons_seq, <- seq_shift. simpl.
      rewrite <- app_assoc. simpl. f_equal. f_equal.
      rewrite map_map. apply map_ext. intros k.
      unfold seconds_at, int_at. by rewrite drop_drop.
    + apply Nat.leb_gt in Hguard.
      rewrite Nat.div_small by lia. simpl. by rewrite app_nil_r.
Qed.

Lemma decode_times_spec p clock cpb :
  decode_times p clock cpb =
  map (seconds_at p (cpufreq clock) cpb) (seq 0 (length cpb / sizeof_int p)).
Proof. unfold decode_times. by rewrite convert_loop_fuel. Qed.

Lemma decode_times_length p clock cpb :
  length (decode_times p clock cpb) = length cpb / sizeof_int p.
Proof. by rewrite decode_times_spec, length_map, length_seq. Qed.

Lemma index_lt {A} (l : list A) (i : nat) (d : A) :
  i < length l → index l (Z.of_nat i) = Returned (nth i l d).
Proof.
  intros Hi. unfold index.
  destruct (Z.ltb_spec (Z.of_nat i) 0); [lia|].
  rewrite Nat2Z.id.
  destruct (nth_lookup_or_length l i d) as [Hn|]; [|lia].
  by rewrite Hn.
Qed.

Lemma index_ge {A} (l : list A) (i : nat) :
  length l ≤ i → index l (Z.of_nat i) = Panicked "index out of range".
Proof.
  intros Hi. unfold index.
  destruct (Z.ltb_spec (Z.of_nat i) 0); [done|].
  rewrite Nat2Z.id. by rewrite lookup_ge_None_2.
Qed.

(** One full group: the five assignments overwrite every field of
    [cpus[j]]. *)
Lemma group_step_full times j cpus :
  j < length cpus → states * j + 4 < length times →
  group_step times (states * j) cpus = Returned (<[j := cputime_at times j]> cpus).
Proof.
  intros Hj Ht. unfold group_step.
  replace (states * j / states) with j
    by (rewrite Nat.mul_comm, Nat.div_mul; [done | unfold states; lia]).
  destruct (lookup_lt_is_Some_2 cpus j Hj) as [c0 Hc0].
  unfold cputime_at. remember (states * j) as i eqn:Hi.
  rewrite (index_lt cpus j c0) by done. simpl.
  rewrite (index_lt times i S754_nan) by lia. simpl.
  rewrite (index_lt times (i + 1) S754_nan) by lia. simpl.
  rewrite (index_lt times (i + 2) S754_nan) by lia. simpl.
  rewrite (index_lt times (i + 3) S754_nan) by lia. simpl.
  rewrite (index_lt times (i + 4) S754_nan) by lia. simpl.
  unfold mret, outcome_ret. f_equal.
  rewrite !list_alter_alter_eq.
  apply list_eq. intros k.
  destruct (decide (k = j)) as [->|Hne].
  - rewrite list_lookup_alter_eq, list_lookup_insert_eq by done.
    by rewrite Hc0.
  - by rewrite list_lookup_alter_ne, list_lookup_insert_ne by done.
Qed.

(** A group that starts where [cpus] has no element left panics. *)
Lemma group_step_short times i cpus :
  length cpus ≤ i / states →
  group_step times i cpus = Panicked "index out of range".
Proof.
  intros Hi. unfold group_step.
  rewrite (index_ge cpus (i / states)) by done. reflexivity.
Qed.

Lemma group_loop_full times n fuel j cpus :
  length times = states * n → length cpus = n → j ≤ n → n - j ≤ fuel →
  group_loop fuel times (states * j) cpus =
  Returned (take j cpus ++ map (cputime_at times) (seq j (n - j))).
Proof.
  intros Ht. revert j cpus.
  induction fuel as [|fuel IH]; intros j cpus Hc Hj Hfuel.
  - replace (n - j) with 0 by lia. simpl.
    by rewrite take_ge, app_nil_r by lia.
  - cbn [group_loop]. destruct (states * j <? length times) eqn:Hguard.
    + apply Nat.ltb_lt in Hguard.
      assert (j < n) as Hlt by (unfold states in *; lia).
      rewrite group_step_full by (unfold states in *; lia).
      change (Returned ?a ≫= ?f) with (f a). cbv beta.
      replace (states * j + states) with (states * S j) by lia.
      rewrite IH by (rewrite ?length_insert; lia).
      f_equal.
      rewrite (take_S_r _ j (cputime_at times j))
        by (apply list_lookup_insert_eq; lia).
      rewrite take_insert_ge by lia.
      replace (n - j) with (S (n - S j)) by lia.
      rewrite <- cons_seq. simpl. by rewrite <- app_assoc.
    + apply Nat.ltb_ge in Hguard.
      assert (j = n) as -> by (unfold states in *; lia).
      rewrite Nat.sub_diag. simpl.
      by rewrite take_ge, app_nil_r by lia.
Qed.

(** The second loop on a whole number of groups. *)
Lemma decode_cpus_full times n :
  length times = states * n →
  decode_cpus times = Returned (map (cputime_at times) (seq 0 n)).
Proof.
  intros Ht. unfold decode_cpus.
  assert (length times / states = n) as Hn
    by (rewrite Ht, Nat.mul_comm, Nat.div_mul; [done | unfold states; lia]).
  rewrite Hn.
  change 0 with (states * 0) at 1.
  rewrite (group_loop_full times n) by (rewrite ?length_replicate; unfold states in *; lia).
  by rewrite Nat.sub_0_r.
Qed.

Lemma decode_times_nth p clock cpb k :
  k < length cpb / sizeof_int p →
  nth k (decode_times p clock cpb) S754_nan = seconds_at p (cpufreq clock) cpb k.
Proof.
  intros Hk. rewrite decode_times_spec.
  rewrite (nth_indep _ S754_nan (seconds_at p (cpufreq clock) cpb 0))
    by (by rewrite length_map, length_seq).
  by rewrite map_nth, seq_nth.
Qed.

(** Both loops together, on a blob whose whole integers make [n] groups. *)
Lemma decode_whole_groups p clock cpb n :
  length cpb / sizeof_int p = states * n →
  decode_cpus (decode_times p clock cpb) =
  Returned (map (cputime_of p (cpufreq clock) cpb) (seq 0 n)).
Proof.
  intros Hn.
  rewrite (decode_cpus_full _ n) by (by rewrite decode_times_length).
  f_equal. apply map_ext_in. intros j Hj. apply in_seq in Hj.
  unfold cputime_at, cputime_of.
  rewrite !decode_times_nth by (unfold states in *; lia).
  reflexivity.
Qed.

(** A last group that is not whole makes the second loop panic: [cpus] was
    made with [len(times)/states] elements, and the loop runs once more. *)
Lemma group_loop_partial times fuel j cpus :
  (length times `mod` states) ≠ 0 → length cpus = length times / states →
  j ≤ length times / states → length times / states - j < fuel →
  group_loop fuel times (states * j) cpus = Panicked "index out of range".
Proof.
  intros Hr. revert j cpus.
  pose proof (Nat.div_mod_eq (length times) states) as Hdm.
  pose proof (Nat.mod_upper_bound (length times) states) as Hub.
  induction fuel as [|fuel IH]; intros j cpus Hc Hj Hfuel; [lia|].
  cbn [group_loop].
  assert ((states * j <? length times) = true) as ->
    by (apply Nat.ltb_lt; unfold states in *; lia).
  destruct (decide (j = length times / states)) as [->|Hne].
  - rewrite group_step_short; [done|].
    rewrite Nat.mul_comm, Nat.div_mul by (unfold states; lia). lia.
  - rewrite group_step_full by (unfold states in *; lia).
    change (Returned ?a ≫= ?f) with (f a). cbv beta.
    replace (states * j + states) with (states * S j) by lia.
    apply IH; rewrite ?length_insert; lia.
Qed.

Lemma decode_cpus_partial times :
  (length times `mod` states) ≠ 0 →
  decode_cpus times = Panicked "index out of range".
Proof.
  intros Hr. unfold decode_cpus.
  change 0 with (states * 0) at 1.
  pose proof (Nat.div_mod_eq (length times) states) as Hdm.
  apply group_loop_partial; rewrite ?length_replicate; try done;
    unfold states in *; lia.
Qed.

(** ** Running the monad *)

Ltac run :=
  unfold mbind, M_bind, mret, M_ret, lift, ask, log, send; simpl.

Lemma getCPUTimes_clock_error p w e :
  sysctl (kernel w) "kern.clockrate" = inl e →
  getCPUTimes p w =
  (Returned ([], Some e), logged w [call_SysctlRaw "kern.clockrate"]).
Proof.
  intros H. unfold getCPUTimes, SysctlRaw. run. by rewrite H.
Qed.

Lemma getCPUTimes_clock_panic p w clockb msg :
  sysctl (kernel w) "kern.clockrate" = inr clockb →
  load_clockinfo p clockb = Panicked msg →
  getCPUTimes p w = (Panicked msg, logged w [call_SysctlRaw "kern.clockrate"]).
Proof.
  intros H1 H2. unfold getCPUTimes, SysctlRaw. run. by rewrite H1, H2.
Qed.

Lemma getCPUTimes_times_error p w clockb clock e :
  sysctl (kernel w) "kern.clockrate" = inr clockb →
  load_clockinfo p clockb = Returned clock →
  sysctl (kernel w) "kern.cp_times" = inl e →
  getCPUTimes p w =
  (Returned ([], Some e),
   logged w [call_SysctlRaw "kern.clockrate"; call_SysctlRaw "kern.cp_times"]).
Proof.
  intros H1 H2 H3. unfold getCPUTimes, SysctlRaw. run.
  rewrite H1, H2. simpl. rewrite H3. unfold logged. simpl.
  by rewrite <- app_assoc.
Qed.

Lemma getCPUTimes_decoded p w clockb clock cpb :
  sysctl (kernel w) "kern.clockrate" = inr clockb →
  load_clockinfo p clockb = Returned clock →
  sysctl (kernel w) "kern.cp_times" = inr cpb →
  getCPUTimes p w =
  (cpus ← decode_cpus (decode_times p clock (elems cpb)); mret (cpus, None),
   logged w [call_SysctlRaw "kern.clockrate"; call_SysctlRaw "kern.cp_times"]).
Proof.
  intros H1 H2 H3. unfold getCPUTimes, SysctlRaw. run.
  rewrite H1, H2. simpl. rewrite H3. unfold logged. simpl.
  rewrite <- app_assoc. simpl.
  by destruct (decode_cpus _).
Qed.

Lemma load_clockinfo_nonempty p clockb :
  elems clockb ≠ [] → ∃ clock, load_clockinfo p clockb = Returned clock.
Proof.
  intros H. unfold load_clockinfo. destruct (elems clockb); [done|]. eauto.
Qed.

(** ** Signs of converted values *)

Section Rounding.
Variables prec emax : Z.

Lemma iter_pos_invariant {A} (P : A → Prop) (f : A → A) :
  (∀ a, P a → P (f a)) → ∀ n a, P a → P (SpecFloat.iter_pos f n a).
Proof.
  intros Hf. induction n as [n IH|n IH|]; intros a Ha; simpl; auto.
Qed.

Lemma shr_1_nonneg mrs : (0 ≤ shr_m mrs)%Z → (0 ≤ shr_m (shr_1 mrs))%Z.
Proof.
  destruct mrs as [m r s]. simpl.
  destruct m as [|[q|q|]|[q|q|]]; simpl; lia.
Qed.

Lemma shr_nonneg mrs e n :
  (0 ≤ shr_m mrs)%Z → (0 ≤ shr_m (fst (shr mrs e n)))%Z.
Proof.
  intros H. unfold shr. destruct n; simpl; try done.
  by apply iter_pos_invariant; [apply shr_1_nonneg|].
Qed.

Lemma shr_fexp_nonneg m e l :
  (0 ≤ m)%Z → (0 ≤ shr_m (fst (shr_fexp prec emax m e l)))%Z.
Proof.
  intros H. unfold shr_fexp. apply shr_nonneg.
  by destruct l as [|[]].
Qed.

Lemma round_nearest_even_nonneg m l :
  (0 ≤ m)%Z → (0 ≤ round_nearest_even m l)%Z.
Proof.
  intros H. unfold round_nearest_even.
  destruct l as [|[]]; try done; [destruct (Z.even m)|]; lia.
Qed.

(** Rounding a non-negative mantissa with sign [false] never produces a
    NaN or a negative value. *)
Lemma binary_round_aux_nonneg m e l :
  (0 ≤ m)%Z →
  float64_nonneg (binary_round_aux prec emax false m e l) = true.
Proof.
  intros H. unfold binary_round_aux.
  pose proof (shr_fexp_nonneg m e l H) as H1.
  destruct (shr_fexp prec emax m e l) as [mrs' e'].
  simpl in H1.
  pose proof (shr_fexp_nonneg
    (round_nearest_even (shr_m mrs') (loc_of_shr_record mrs')) e' loc_Exact
    (round_nearest_even_nonneg _ _ H1)) as H2.
  destruct (shr_fexp prec emax _ e' loc_Exact) as [mrs'' e''].
  simpl in H2.
  destruct (shr_m mrs''); [done| |lia].
  by destruct (Z.leb e'' (emax - prec)).
Qed.
End Rounding.

Lemma digits2_pos_lower m : (2 ^ (Z.pos (digits2_pos m) - 1) ≤ Z.pos m)%Z.
Proof.
  induction m as [m IH|m IH|]; simpl digits2_pos; [| |done].
  - rewrite Pos2Z.inj_succ.
    replace (Z.succ (Z.pos (digits2_pos m)) - 1)%Z
      with (Z.succ (Z.pos (digits2_pos m) - 1)) by lia.
    rewrite Z.pow_succ_r by lia. lia.
  - rewrite Pos2Z.inj_succ.
    replace (Z.succ (Z.pos (digits2_pos m)) - 1)%Z
      with (Z.succ (Z.pos (digits2_pos m) - 1)) by lia.
    rewrite Z.pow_succ_r by lia. lia.
Qed.

Lemma digits2_pos_shift m k :
  digits2_pos (Pos.iter xO m k) = (digits2_pos m + k)%positive.
Proof.
  induction k as [|k IH] using Pos.peano_ind.
  - simpl. lia.
  - rewrite Pos.iter_succ. simpl. rewrite IH. lia.
Qed.

(** A mantissa of exactly 53 bits at an exponent in range is already a
    binary64 number: rounding leaves it alone. *)
Lemma binary_round_aux_canonical s m e :
  Z.pos (digits2_pos m) = 53%Z → (-1074 ≤ e ≤ 971)%Z →
  binary_round_aux 53 1024 s (Z.pos m) e loc_Exact = S754_finite s m e.
Proof.
  intros Hd He.
  assert (∀ m', Z.pos (digits2_pos m') = 53%Z →
    shr_fexp 53 1024 (Z.pos m') e loc_Exact =
    ({| shr_m := Z.pos m'; shr_r := false; shr_s := false |}, e)) as Hshr.
  { intros m' Hd'. unfold shr_fexp. simpl Zdigits2. rewrite Hd'.
    replace (fexp 53 1024 (53 + e) - e)%Z with 0%Z
      by (unfold fexp, emin; lia).
    reflexivity. }
  unfold binary_round_aux.
  rewrite (Hshr m Hd). simpl shr_m. simpl loc_of_shr_record.
  simpl round_nearest_even. rewrite (Hshr m Hd). simpl shr_m.
  replace (e <=? 1024 - 53)%Z with true by (symmetry; apply Z.leb_le; lia).
  reflexivity.
Qed.

(** [float64(n)] of a positive integer below [2^53] is a positive finite
    number. *)
Lemma float64_of_int_small_pos n :
  (0 < n < 2 ^ 53)%Z → ∃ m e, float64_of_int n = S754_finite false m e.
Proof.
  intros [Hpos Hlt]. destruct n as [|m|m]; [lia| |lia].
  unfold float64_of_int, binary_normalize, binary_round.
  pose proof (digits2_pos_lower m) as Hlow.
  assert (Z.pos (digits2_pos m) ≤ 53)%Z as Hd.
  { destruct (Z.le_gt_cases (Z.pos (digits2_pos m)) 53) as [|Hgt]; [done|].
    assert (2 ^ 53 ≤ 2 ^ (Z.pos (digits2_pos m) - 1))%Z
      by (apply Z.pow_le_mono_r; lia).
    lia. }
  replace (fexp 53 1024 (Z.pos (digits2_pos m) + 0))
    with (Z.pos (digits2_pos m) - 53)%Z by (unfold fexp, emin; lia).
  unfold shl_align.
  destruct (Z.pos (digits2_pos m) - 53 - 0)%Z as [|k|k] eqn:Hk; [|lia|].
  - rewrite binary_round_aux_canonical by lia. eauto.
  - rewrite binary_round_aux_canonical; [eauto| |lia].
    rewrite digits2_pos_shift. lia.
Qed.

Lemma float64_of_int_nonneg n :
  (0 ≤ n)%Z → float64_nonneg (float64_of_int n) = true.
Proof.
  intros H. destruct n as [|m|m]; [done| |lia].
  unfold float64_of_int, binary_normalize, binary_round.
  destruct (shl_align _ _ _) as [mz ez].
  by apply binary_round_aux_nonneg.
Qed.

(** A non-negative tick count divided by a positive frequency below [2^53]
    is a non-negative number of seconds. *)
Lemma seconds_nonneg t f :
  (0 ≤ t)%Z → (0 < f < 2 ^ 53)%Z →
  float64_nonneg (float64_div (float64_of_int t) (float64_of_int f)) = true.
Proof.
  intros Ht Hf.
  destruct (float64_of_int_small_pos f Hf) as (my & ey & ->).
  pose proof (float64_of_int_nonneg t Ht) as Hx.
  destruct (float64_of_int t) as [[]|[]| |[] mx ex]; try done.
  unfold float64_div, SFdiv.
  destruct (SFdiv_core_binary 53 1024 (Z.pos mx) ex (Z.pos my) ey)
    as [[mz ez] lz] eqn:Hcore.
  apply binary_round_aux_nonneg.
  unfold SFdiv_core_binary in Hcore.
  set (m' := match (ex - ey - _)%Z with Z0 => _ | Z.pos _ => _ | Z.neg _ => _ end) in Hcore.
  assert (0 ≤ m')%Z as Hm'.
  { subst m'. destruct (ex - ey - _)%Z; try lia.
    apply Z.shiftl_nonneg. lia. }
  pose proof (Z.div_pos m' (Z.pos my) Hm' ltac:(lia)) as Hq.
  unfold Z.div in Hq. destruct (Z.div_eucl m' (Z.pos my)) as [q r].
  injection Hcore as <- _ _. exact Hq.
Qed.

(** ** Ranges of decoded integers *)

Lemma le_unsigned_bound bs :
  (0 ≤ le_unsigned bs < 256 ^ Z.of_nat (length bs))%Z.
Proof.
  induction bs as [|b bs IH]; [simpl; lia|].
  cbn [le_unsigned length]. rewrite Nat2Z.inj_succ, Z.pow_succ_r by lia.
  pose proof (Byte.to_N_bounded b). lia.
Qed.

Lemma native_unsigned_bound p bs :
  (0 ≤ native_unsigned p bs < 256 ^ Z.of_nat (length bs))%Z.
Proof.
  unfold native_unsigned. destruct (endian p).
  - apply le_unsigned_bound.
  - rewrite <- (length_rev bs). apply le_unsigned_bound.
Qed.

Lemma load_int32_range p s off :
  (- 2 ^ 31 ≤ load_int32 p s off < 2 ^ 31)%Z.
Proof.
  unfold load_int32, native_signed.
  set (bs := read_memory s off 4).
  assert (length bs = 4) as Hlen
    by (subst bs; unfold read_memory; by rewrite length_map, length_seq).
  pose proof (native_unsigned_bound p bs) as Hu. rewrite Hlen in *.
  change (8 * Z.of_nat 4)%Z with 32%Z. change (32 - 1)%Z with 31%Z.
  change (256 ^ Z.of_nat 4)%Z with (2 ^ 32)%Z in Hu.
  destruct (Z.ltb_spec (native_unsigned p bs) (2 ^ 31)); lia.
Qed.

Lemma load_clockinfo_range p clockb clock :
  load_clockinfo p clockb = Returned clock →
  (stathz clock < 2 ^ 31)%Z ∧ (hz clock < 2 ^ 31)%Z.
Proof.
  unfold load_clockinfo. destruct (elems clockb); [done|].
  intros [= <-]. simpl.
  pose proof (load_int32_range p clockb 12).
  pose proof (load_int32_range p clockb 0). lia.
Qed.

(** Only the bytes of the whole integers are read. *)
Lemma int_at_take p cpb m k :
  (k + 1) * sizeof_int p ≤ m → int_at p (take m cpb) k = int_at p cpb k.
Proof.
  intros H. unfold int_at, load_int. f_equal.
  rewrite !take_drop_commute, take_take. do 2 f_equal. lia.
Qed.

Lemma cputime_of_take p freq cpb m j :
  (states * j + states) * sizeof_int p ≤ m →
  cputime_of p freq (take m cpb) j = cputime_of p freq cpb j.
Proof.
  intros H. unfold cputime_of, seconds_at.
  rewrite !int_at_take; [done|unfold states in *; nia..].
Qed.

(** ** The cpu decoder on well-formed and malformed answers *)

Lemma getCPUTimes_groups p w clockb clock cpb n :
  sysctl (kernel w) "kern.clockrate" = inr clockb →
  load_clockinfo p clockb = Returned clock →
  sysctl (kernel w) "kern.cp_times" = inr cpb →
  length (elems cpb) / sizeof_int p = states * n →
  getCPUTimes p w =
  (Returned (map (cputime_of p (cpufreq clock) (elems cpb)) (seq 0 n), None),
   logged w [call_SysctlRaw "kern.clockrate"; call_SysctlRaw "kern.cp_times"]).
Proof.
  intros H1 H2 H3 Hn.
  rewrite (getCPUTimes_decoded p w clockb clock cpb) by done.
  by rewrite (decode_whole_groups p clock (elems cpb) n).
Qed.

(** The decoder panics when the whole integers of the blob do not make a
    whole number of groups of five. *)
Lemma getCPUTimes_partial_group p w clockb clock cpb :
  sysctl (kernel w) "kern.clockrate" = inr clockb →
  load_clockinfo p clockb = Returned clock →
  sysctl (kernel w) "kern.cp_times" = inr cpb →
  ((length (elems cpb) / sizeof_int p) `mod` states) ≠ 0 →
  fst (getCPUTimes p w) = Panicked "index out of range".
Proof.
  intros H1 H2 H3 Hn.
  rewrite (getCPUTimes_decoded p w clockb clock cpb) by done.
  rewrite decode_cpus_partial; [done|].
  by rewrite decode_times_length.
Qed.

(** ** Worlds that differ only in what was logged and sent *)

Lemma extend_nil w : extend w [] [] = w.
Proof. destruct w. unfold extend. simpl. by rewrite !app_nil_r. Qed.

Lemma extend_extend w es ms es' ms' :
  extend (extend w es ms) es' ms' = extend w (es ++ es') (ms ++ ms').
Proof. unfold extend. simpl. by rewrite !app_assoc. Qed.

Lemma logged_extend w es : logged w es = extend w es [].
Proof. unfold logged, extend. by rewrite app_nil_r. Qed.

(** ** The devstat collector, device by device *)

Lemma get_ndevs_run w :
  _get_ndevs w =
  (Returned (if calloc_fails (kernel w) then (-2)%Z
             else match getdevs (kernel w) with
                  | None => (-1)%Z
                  | Some devs => Z.of_nat (length devs)
                  end),
   extend w [call_get_ndevs] []).
Proof.
  unfold _get_ndevs, extend. run. rewrite app_nil_r.
  destruct (calloc_fails (kernel w)); [done|].
  by destruct (getdevs (kernel w)).
Qed.

Lemma get_stats_run p w devs i d :
  calloc_fails (kernel w) = false → getdevs (kernel w) = Some devs →
  devs !! i = Some d →
  _get_stats p (Z.of_nat i) w =
  (Returned (device_stats p d), extend w [call_get_stats (Z.of_nat i)] []).
Proof.
  intros H1 H2 H3. unfold _get_stats, extend. run.
  rewrite H1, H2, app_nil_r. simpl. unfold index.
  destruct (Z.ltb_spec (Z.of_nat i) 0); [lia|].
  by rewrite Nat2Z.id, H3.
Qed.

Lemma emit_run d v labels w :
  length labels = length (variableLabels (desc d)) →
  emit d v labels w = (Returned tt, extend w [] [sample d v labels]).
Proof.
  intros H. unfold emit, mustNewConstMetric, extend. run.
  rewrite H, Nat.eqb_refl, app_nil_r. reflexivity.
Qed.

Lemma bind_run {A B} (m : M A) (f : A → M B) w a es ms :
  m w = (Returned a, extend w es ms) →
  (m ≫= f) w = f a (extend w es ms).
Proof. intros H. unfold mbind, M_bind. by rewrite H. Qed.

Lemma devstat_step_run p ns w devs i d :
  calloc_fails (kernel w) = false → getdevs (kernel w) = Some devs →
  devs !! i = Some d →
  devstat_step p (fst (NewDevstatCollector ns)) (Z.of_nat i) w =
  (Returned tt,
   extend w [call_get_stats (Z.of_nat i)]
          (device_samples (fst (NewDevstatCollector ns)) (device_stats p d))).
Proof.
  intros H1 H2 H3. unfold devstat_step.
  rewrite (bind_run _ _ _ _ _ _ (get_stats_run p w devs i d H1 H2 H3)).
  do 9 (erewrite bind_run; [|by apply emit_run]; rewrite extend_extend).
  rewrite emit_run by done. by rewrite extend_extend.
Qed.

Lemma devstat_loop_run p ns fuel w devs j :
  calloc_fails (kernel w) = false → getdevs (kernel w) = Some devs →
  length devs - j ≤ fuel →
  devstat_loop p (fst (NewDevstatCollector ns)) fuel
               (Z.of_nat (length devs)) (Z.of_nat j) w =
  (Returned tt,
   extend w (stats_calls j (length devs - j))
          (flat_map (λ d, device_samples (fst (NewDevstatCollector ns))
                                         (device_stats p d))
                    (drop j devs))).
Proof.
  revert w j. induction fuel as [|fuel IH]; intros w j H1 H2 Hfuel.
  - replace (length devs - j) with 0 by lia.
    rewrite drop_ge by lia. simpl. by rewrite extend_nil.
  - cbn [devstat_loop].
    destruct (Z.ltb_spec (Z.of_nat j) (Z.of_nat (length devs))) as [Hlt|Hge].
    + destruct (lookup_lt_is_Some_2 devs j ltac:(lia)) as [d Hd].
      rewrite (bind_run _ _ _ _ _ _ (devstat_step_run p ns w devs j d H1 H2 Hd)).
      replace (Z.of_nat j + 1)%Z with (Z.of_nat (S j)) by lia.
      rewrite IH by (simpl; try done; lia).
      rewrite extend_extend. do 2 f_equal.
      * unfold stats_calls.
        replace (length devs - j) with (S (length devs - S j)) by lia.
        by rewrite <- cons_seq.
      * rewrite (drop_S devs d j Hd). reflexivity.
    + replace (length devs - j) with 0 by lia.
      rewrite drop_ge by lia. simpl. by rewrite extend_nil.
Qed.

(** A cycle on a kernel whose enumeration succeeds: one enumeration, one
    query per device in index order, and the samples of every device in
    that order. *)
Lemma devstat_Update_run p ns w devs :
  calloc_fails (kernel w) = false → getdevs (kernel w) = Some devs →
  devstatCollector_Update p (fst (NewDevstatCollector ns)) w =
  (Returned None,
   extend w (call_get_ndevs :: stats_calls 0 (length devs))
          (flat_map (λ d, device_samples (fst (NewDevstatCollector ns))
                                         (device_stats p d)) devs)).
Proof.
  intros H1 H2. unfold devstatCollector_Update.
  rewrite (bind_run _ _ _ _ _ _ (get_ndevs_run w)).
  rewrite H1, H2.
  destruct (Z.eqb_spec (Z.of_nat (length devs)) (-1)); [lia|].
  destruct (Z.eqb_spec (Z.of_nat (length devs)) (-2)); [lia|].
  rewrite Nat2Z.id.
  pose proof (devstat_loop_run p ns (length devs)
    (extend w [call_get_ndevs] []) devs 0 H1 H2 ltac:(lia)) as Hloop.
  change (Z.of_nat 0) with 0%Z in Hloop.
  rewrite (bind_run _ _ _ _ _ _ Hloop).
  rewrite extend_extend, Nat.sub_0_r. reflexivity.
Qed.

(** A cycle whose enumeration fails: the error, no query, no sample. *)
Lemma devstat_Update_fails p c w count :
  fst (_get_ndevs w) = Returned count →
  count = (-1)%Z ∨ count = (-2)%Z →
  devstatCollector_Update p c w =
  (Returned (Some (errorString (if (count =? -1)%Z then "devstat_getdevs() failed"
                                else "calloc() failed"))),
   extend w [call_get_ndevs] []).
Proof.
  intros Hc Hs. unfold devstatCollector_Update.
  rewrite get_ndevs_run in Hc. simpl in Hc. injection Hc as Hc.
  rewrite (bind_run _ _ _ _ _ _ (get_ndevs_run w)). rewrite Hc.
  by destruct Hs as [-> | ->].
Qed.

(** ** The cpu collector around its decoder *)

Lemma stat_Update_error x p c w cpuTimes e w' :
  getCPUTimes p w = (Returned (cpuTimes, Some e), w') →
  statCollector_Update x p c w = (Returned (Some e), w').
Proof.
  intros H. unfold statCollector_Update, mbind, M_bind. by rewrite H.
Qed.


(** ** What an out-of-bounds load of the clock-rate record can see *)

Lemma read_memory_in_bounds s off n :
  off + n ≤ length (elems s) → read_memory s off n = take n (drop off (elems s)).
Proof.
  unfold read_memory. revert off. induction n as [|n IH]; intros off H.
  - by rewrite take_0.
  - destruct (lookup_lt_is_Some_2 (elems s) off ltac:(lia)) as [b Hb].
    rewrite (drop_S _ b off Hb). cbn [seq map take].
    rewrite IH by lia. unfold byte_at. by rewrite Hb.
Qed.

(** The two frequencies lie in the first 16 bytes of the record: when the
    answer has at least 16 bytes, what follows the slice in memory has no
    influence on them. *)
Lemma load_clockinfo_frequencies p bs mem1 mem2 c1 c2 :
  16 ≤ length bs →
  load_clockinfo p (Slice bs mem1) = Returned c1 →
  load_clockinfo p (Slice bs mem2) = Returned c2 →
  cpufreq c1 = cpufreq c2.
Proof.
  intros Hlen. unfold load_clockinfo. simpl.
  destruct bs as [|b bs']; [done|]. intros [= <-] [= <-].
  unfold cpufreq, load_int32. simpl.
  rewrite !read_memory_in_bounds by (simpl in *; lia). reflexivity.
Qed.

Lemma getCPUTimes_short_clockrate_any_memory p w1 w2 bs mem1 mem2 cpb :
  16 ≤ length bs →
  sysctl (kernel w1) "kern.clockrate" = inr (Slice bs mem1) →
  sysctl (kernel w2) "kern.clockrate" = inr (Slice bs mem2) →
  sysctl (kernel w1) "kern.cp_times" = inr cpb →
  sysctl (kernel w2) "kern.cp_times" = inr cpb →
  fst (getCPUTimes p w1) = fst (getCPUTimes p w2).
Proof.
  intros Hlen H1 H2 H3 H4.
  destruct (load_clockinfo_nonempty p (Slice bs mem1)) as [c1 Hc1];
    [destruct bs; [simpl in Hlen; lia | done]|].
  destruct (load_clockinfo_nonempty p (Slice bs mem2)) as [c2 Hc2];
    [destruct bs; [simpl in Hlen; lia | done]|].
  rewrite (getCPUTimes_decoded p w1 _ c1 cpb H1 Hc1 H3).
  rewrite (getCPUTimes_decoded p w2 _ c2 cpb H2 Hc2 H4).
  unfold decode_times.
  by rewrite (load_clockinfo_frequencies p bs mem1 mem2 c1 c2 Hlen Hc1 Hc2).
Qed.

(** ** The model at work *)

(** Device name "ada" and unit 0 give the label "ada0". *)
Example device_label_ada0 :
  map labelValues
      (device_samples (fst (NewDevstatCollector "node"))
                      (device_stats amd64 (disk "ada" 0)))
  = [ ["ada0"; "read"]; ["ada0"; "write"];
      ["ada0"; "other"]; ["ada0"; "read"]; ["ada0"; "write"];
      ["ada0"; "other"]; ["ada0"; "read"]; ["ada0"; "write"];
      ["ada0"]; ["ada0"] ].
Proof. reflexivity. Qed.

Example metric_names :
  map (λ m, fqName (metric_desc m))
      (device_samples (fst (NewDevstatCollector "node"))
                      (device_stats amd64 (disk "ada" 0)))
  = [ "node_devstat_bytes_total"; "node_devstat_bytes_total";
      "node_devstat_transfers_total"; "node_devstat_transfers_total";
      "node_devstat_transfers_total";
      "node_devstat_duration_seconds_total"; "node_devstat_duration_seconds_total";
      "node_devstat_duration_seconds_total";
      "node_devstat_busy_time_seconds_total";
      "node_devstat_blocks_transferred_total" ].
Proof. reflexivity. Qed.

(** Six whole integers are one group and a part of a second one: the
    second loop panics. *)
Example six_integers_panic :
  fst (getCPUTimes amd64
         (boot (kernel_of clockrate_amd64 (one_cpu ++ encode_le 8 6) [])))
  = Panicked "index out of range".
Proof. reflexivity. Qed.


(** ** Division by a zero frequency *)

Lemma shr_1_halves mrs :
  (0 ≤ shr_m mrs)%Z → shr_m (shr_1 mrs) = (shr_m mrs / 2)%Z.
Proof.
  destruct mrs as [m r s]. cbn [shr_m shr_1].
  destruct m as [|[q|q|]|[q|q|]]; cbn [shr_m]; intros H; try lia; try done.
  - rewrite Pos2Z.inj_xI. apply Z.div_unique with 1%Z; lia.
  - rewrite Pos2Z.inj_xO, Z.mul_comm, Z.div_mul by lia. reflexivity.
Qed.

Lemma iter_shr_1 n mrs :
  (0 ≤ shr_m mrs)%Z →
  shr_m (SpecFloat.iter_pos shr_1 n mrs) = (shr_m mrs / 2 ^ Z.pos n)%Z.
Proof.
  revert mrs. induction n as [n IH|n IH|]; intros mrs H; simpl SpecFloat.iter_pos.
  - pose proof (shr_1_nonneg mrs H) as H1.
    pose proof (iter_pos_invariant (λ x, 0 ≤ shr_m x)%Z shr_1 shr_1_nonneg n _ H1) as H2.
    rewrite IH, IH, shr_1_halves by done.
    assert (0 < 2 ^ Z.pos n)%Z by (apply Z.pow_pos_nonneg; lia).
    rewrite !Z.div_div by lia. f_equal.
    rewrite Pos2Z.inj_xI.
    replace (2 * Z.pos n + 1)%Z with (1 + Z.pos n + Z.pos n)%Z by lia.
    rewrite !Z.pow_add_r by lia. change (2 ^ 1)%Z with 2%Z. ring.
  - pose proof (iter_pos_invariant (λ x, 0 ≤ shr_m x)%Z shr_1 shr_1_nonneg n _ H) as H2.
    rewrite IH, IH by done.
    assert (0 < 2 ^ Z.pos n)%Z by (apply Z.pow_pos_nonneg; lia).
    rewrite Z.div_div by lia. f_equal.
    change (Z.pos n~0) with (2 * Z.pos n)%Z.
    replace (2 * Z.pos n)%Z with (Z.pos n + Z.pos n)%Z by lia.
    rewrite Z.pow_add_r by lia. reflexivity.
  - by apply shr_1_halves.
Qed.

(** Shifting a positive mantissa to its binary64 exponent leaves it
    positive. *)
Lemma shr_fexp_pos m e l :
  (0 < m)%Z → (-1074 ≤ e)%Z →
  (0 < shr_m (fst (shr_fexp 53 1024 m e l)))%Z ∧
  (-1074 ≤ snd (shr_fexp 53 1024 m e l))%Z.
Proof.
  intros Hm He. destruct m as [|q|q]; [lia| |lia].
  unfold shr_fexp, shr. cbn [Zdigits2].
  assert (shr_m (shr_record_of_loc (Z.pos q) l) = Z.pos q) as Hrec
    by (by destruct l as [|[]]).
  pose proof (digits2_pos_lower q) as Hlow.
  destruct (fexp 53 1024 (Z.pos (digits2_pos q) + e) - e)%Z as [|k|k] eqn:Hn;
    cbn [fst snd]; rewrite ?Hrec; try (split; lia).
  rewrite iter_shr_1 by (rewrite Hrec; lia). rewrite Hrec.
  unfold fexp, emin in Hn. split; [|lia].
  apply Z.div_str_pos. split; [apply Z.pow_pos_nonneg; lia|].
  etransitivity; [|exact Hlow]. apply Z.pow_le_mono_r; lia.
Qed.

(** Rounding a positive mantissa gives a non-zero number of the given
    sign: finite, or infinite on overflow. *)
Lemma binary_round_aux_pos s m e l :
  (0 < m)%Z → (-1074 ≤ e)%Z →
  (∃ m' e', binary_round_aux 53 1024 s m e l = S754_finite s m' e') ∨
  binary_round_aux 53 1024 s m e l = S754_infinity s.
Proof.
  intros Hm He. unfold binary_round_aux.
  destruct (shr_fexp_pos m e l Hm He) as [H1 H1'].
  destruct (shr_fexp 53 1024 m e l) as [mrs' e']. cbn [fst snd] in H1, H1'.
  assert (0 < round_nearest_even (shr_m mrs') (loc_of_shr_record mrs'))%Z as Hr.
  { unfold round_nearest_even.
    destruct (loc_of_shr_record mrs') as [|[]]; try lia.
    destruct (Z.even (shr_m mrs')); lia. }
  destruct (shr_fexp_pos _ e' loc_Exact Hr H1') as [H2 _].
  destruct (shr_fexp 53 1024 _ e' loc_Exact) as [mrs'' e'']. cbn [fst] in H2.
  destruct (shr_m mrs'') as [|q|q]; [lia| |lia].
  destruct (Z.leb e'' (1024 - 53)); eauto.
Qed.

Lemma float64_of_int_nonzero t :
  t ≠ 0%Z →
  (∃ m e, float64_of_int t = S754_finite (t <? 0)%Z m e) ∨
  float64_of_int t = S754_infinity (t <? 0)%Z.
Proof.
  intros Ht. destruct t as [|q|q]; [done| |];
    unfold float64_of_int, binary_normalize, binary_round;
    change (Z.pos q <? 0)%Z with false; change (Z.neg q <? 0)%Z with true;
    destruct (shl_align q 0 (fexp 53 1024 (Z.pos (digits2_pos q) + 0)))
      as [mz ez] eqn:Hal;
    apply binary_round_aux_pos; try lia;
    unfold shl_align in Hal;
    destruct (fexp 53 1024 (Z.pos (digits2_pos q) + 0) - 0)%Z eqn:Hd;
    injection Hal as _ <-; unfold fexp, emin in *; lia.
Qed.

(** [float64(t) / float64(0)] in Go: NaN for 0, else the infinity of the
    sign of [t]. *)
Lemma float64_div_by_zero t :
  float64_div (float64_of_int t) (float64_of_int 0) =
  if (t =? 0)%Z then S754_nan else S754_infinity (t <? 0)%Z.
Proof.
  destruct (Z.eqb_spec t 0) as [->|Ht]; [reflexivity|].
  destruct (float64_of_int_nonzero t Ht) as [(m & e & ->)| ->];
    unfold float64_div, float64_of_int; simpl; by destruct (t <? 0)%Z.
Qed.

(** * The claims *)

(** C1, as stated, fails: a [kern.cp_times] answer of 41 bytes on a 64-bit
    machine (41 is not a multiple of 5 * 8) is decoded without any error
    into one CPU; the odd byte is dropped. *)
Lemma C1_blob_of_41_bytes_is_decoded :
  sysctl (kernel world_41_bytes) "kern.cp_times"
    = inr (Slice (one_cpu ++ [x01]) (λ _, x00)) ∧
  length (one_cpu ++ [x01]) = 41 ∧
  (41 `mod` (5 * sizeof_int amd64)) ≠ 0 ∧
  fst (getCPUTimes amd64 world_41_bytes) =
  Returned ([ {| user := float64_div (float64_of_int 1) (float64_of_int 127);
                 nice := float64_div (float64_of_int 2) (float64_of_int 127);
                 sys := float64_div (float64_of_int 3) (float64_of_int 127);
                 intr := float64_div (float64_of_int 4) (float64_of_int 127);
                 idle := float64_div (float64_of_int 5) (float64_of_int 127) |} ],
            None).
Proof. repeat split; try reflexivity. vm_compute. lia. Qed.

(** C1 (amended): the decoder validates no length.  It decodes the whole
    native integers at the front of the [kern.cp_times] blob and ignores a
    trailing fragment shorter than one integer; whenever the number of
    whole integers is a multiple of 5, say [5 * n], it returns no error and
    exactly [n] samples, the same as for the blob cut to
    [5 * n * sizeof(int)] bytes. *)
Theorem getCPUTimes_ignores_trailing_fragment p w clockb clock cpb n :
  sysctl (kernel w) "kern.clockrate" = inr clockb →
  load_clockinfo p clockb = Returned clock →
  sysctl (kernel w) "kern.cp_times" = inr cpb →
  length (elems cpb) / sizeof_int p = states * n →
  fst (getCPUTimes p w) =
    Returned (map (cputime_of p (cpufreq clock) (elems cpb)) (seq 0 n), None) ∧
  length (map (cputime_of p (cpufreq clock) (elems cpb)) (seq 0 n)) = n ∧
  map (cputime_of p (cpufreq clock) (elems cpb)) (seq 0 n) =
  map (cputime_of p (cpufreq clock)
         (take (states * n * sizeof_int p) (elems cpb))) (seq 0 n).
Proof.
  intros H1 H2 H3 Hn. split; [|split].
  - by rewrite (getCPUTimes_groups p w clockb clock cpb n).
  - by rewrite length_map, length_seq.
  - apply map_ext_in. intros j Hj. apply in_seq in Hj.
    symmetry. apply cputime_of_take. unfold states in *. nia.
Qed.

Lemma getCPUTimes_ignores_trailing_fragment_witness :
  fst (getCPUTimes amd64 world_41_bytes) =
    Returned (map (cputime_of amd64 (cpufreq clockinfo_amd64) (one_cpu ++ [x01]))
                  (seq 0 1), None) ∧
  length (map (cputime_of amd64 (cpufreq clockinfo_amd64) (one_cpu ++ [x01]))
              (seq 0 1)) = 1 ∧
  map (cputime_of amd64 (cpufreq clockinfo_amd64) (one_cpu ++ [x01])) (seq 0 1) =
  map (cputime_of amd64 (cpufreq clockinfo_amd64)
         (take (states * 1 * sizeof_int amd64) (one_cpu ++ [x01]))) (seq 0 1).
Proof.
  apply (getCPUTimes_ignores_trailing_fragment amd64 world_41_bytes
           (Slice clockrate_amd64 (λ _, x00)) clockinfo_amd64
           (Slice (one_cpu ++ [x01]) (λ _, x00)) 1); reflexivity.
Defined.

(** C2, as stated, fails: with [stathz = 0] and [hz = 0] the decoder
    reports no error; it divides every tick count by zero and returns the
    infinities. *)
Lemma C2_zero_frequency_is_divided_by :
  load_clockinfo amd64 (Slice (encode_le 4 0 ++ encode_le 4 1000 ++ encode_le 4 0
                               ++ encode_le 4 0 ++ encode_le 4 8128) (λ _, x00))
    = Returned {| hz := 0; tick := 1000; spare := 0; stathz := 0; profhz := 8128 |} ∧
  fst (getCPUTimes amd64 world_zero_hz) =
  Returned ([ {| user := S754_infinity false; nice := S754_infinity false;
                 sys := S754_infinity false; intr := S754_infinity false;
                 idle := S754_infinity false |} ], None).
Proof. split; reflexivity. Qed.

(** C2 (amended): if both [stathz] and [hz] decoded from the clock-rate
    record are non-positive, the decoder makes no check and never reports a
    decode error.  The conversion frequency is [float64(hz)]; every whole
    raw tick count [t] of the table is converted to
    [float64(t) / float64(hz)], a division by a non-positive divisor (for
    [hz = 0]: NaN when [t = 0], the infinity of the sign of [t]
    otherwise); the decoder then returns the grouped samples with a nil
    error when the number of values is a multiple of 5, and panics in the
    grouping loop otherwise. *)
Theorem getCPUTimes_divides_by_nonpositive_hz p w clockb clock cpb :
  sysctl (kernel w) "kern.clockrate" = inr clockb →
  load_clockinfo p clockb = Returned clock →
  (stathz clock ≤ 0)%Z → (hz clock ≤ 0)%Z →
  sysctl (kernel w) "kern.cp_times" = inr cpb →
  let q := length (elems cpb) / sizeof_int p in
  decode_times p clock (elems cpb) =
    map (λ k, float64_div (float64_of_int (int_at p (elems cpb) k))
                          (float64_of_int (hz clock)))
        (seq 0 q) ∧
  fst (getCPUTimes p w) =
    (if (q `mod` states =? 0)%nat
     then Returned (map (cputime_of p (float64_of_int (hz clock)) (elems cpb))
                        (seq 0 (q / states)), None)
     else Panicked "index out of range") ∧
  (∀ cpus e, fst (getCPUTimes p w) ≠ Returned (cpus, Some e)) ∧
  (hz clock = 0%Z →
   ∀ k, k < q →
     decode_times p clock (elems cpb) !! k =
     Some (if (int_at p (elems cpb) k =? 0)%Z then S754_nan
           else S754_infinity (int_at p (elems cpb) k <? 0)%Z)).
Proof.
  intros H1 H2 Hs Hh H3 q.
  assert (cpufreq clock = float64_of_int (hz clock)) as Hfreq.
  { unfold cpufreq. by destruct (Z.ltb_spec 0 (stathz clock)); [lia|]. }
  assert (fst (getCPUTimes p w) =
    (if (q `mod` states =? 0)%nat
     then Returned (map (cputime_of p (float64_of_int (hz clock)) (elems cpb))
                        (seq 0 (q / states)), None)
     else Panicked "index out of range")) as Hrun.
  { rewrite (getCPUTimes_decoded p w clockb clock cpb H1 H2 H3). cbn [fst].
    destruct (Nat.eqb_spec (q `mod` states) 0) as [Hq|Hq].
    - rewrite (decode_whole_groups p clock (elems cpb) (q / states)).
      + by rewrite Hfreq.
      + apply Nat.Div0.div_exact in Hq. exact Hq.
    - rewrite decode_cpus_partial; [done|]. by rewrite decode_times_length. }
  repeat apply conj.
  - rewrite decode_times_spec. apply map_ext. intros k.
    unfold seconds_at. by rewrite Hfreq.
  - exact Hrun.
  - intros cpus e. rewrite Hrun. by destruct (q `mod` states =? 0)%nat.
  - intros Hz k Hk.
    rewrite decode_times_spec, list_lookup_fmap, lookup_seq_lt by done.
    cbn [fmap option_fmap option_map]. f_equal.
    unfold seconds_at. rewrite Hfreq, Hz. apply float64_div_by_zero.
Qed.

Lemma getCPUTimes_divides_by_nonpositive_hz_witness :
  let clock := {| hz := 0; tick := 1000; spare := 0; stathz := 0; profhz := 8128 |} in
  let q := length one_cpu / sizeof_int amd64 in
  decode_times amd64 clock one_cpu =
    map (λ k, float64_div (float64_of_int (int_at amd64 one_cpu k)) (float64_of_int 0))
        (seq 0 q) ∧
  fst (getCPUTimes amd64 world_zero_hz) =
    (if (q `mod` states =? 0)%nat
     then Returned (map (cputime_of amd64 (float64_of_int 0) one_cpu)
                        (seq 0 (q / states)), None)
     else Panicked "index out of range") ∧
  (∀ cpus e, fst (getCPUTimes amd64 world_zero_hz) ≠ Returned (cpus, Some e)) ∧
  (0%Z = 0%Z →
   ∀ k, k < q →
     decode_times amd64 clock one_cpu !! k =
     Some (if (int_at amd64 one_cpu k =? 0)%Z then S754_nan
           else S754_infinity (int_at amd64 one_cpu k <? 0)%Z)).
Proof.
  apply (getCPUTimes_divides_by_nonpositive_hz amd64 world_zero_hz
           (Slice (encode_le 4 0 ++ encode_le 4 1000 ++ encode_le 4 0
                   ++ encode_le 4 0 ++ encode_le 4 8128) (λ _, x00))
           {| hz := 0; tick := 1000; spare := 0; stathz := 0; profhz := 8128 |}
           (Slice one_cpu (λ _, x00)));
    try reflexivity; simpl; lia.
Defined.

(** C3, as stated, fails: with three devices the collector makes three
    per-device queries but sends 30 samples, ten per device, not 27. *)
Lemma C3_three_disks_send_30_samples :
  fst (_get_ndevs world_three_disks) = Returned 3%Z ∧
  length (sent (snd (devstatCollector_Update amd64 (fst (NewDevstatCollector "node"))
                       world_three_disks))) = 30 ∧
  30 ≠ 27.
Proof. repeat split; try reflexivity. lia. Qed.

(** C3 (amended): when device enumeration returns a count of 3, the
    collector performs exactly 3 per-device statistics queries (indices 0,
    1, 2) and sends exactly 10 samples per device (bytes read and write,
    transfers other, read and write, duration other, read and write, busy
    time, blocks), 30 samples in total, and returns no error. *)
Theorem devstat_Update_three_devices p ns w :
  fst (_get_ndevs w) = Returned 3%Z →
  ∃ d0 d1 d2,
    getdevs (kernel w) = Some [d0; d1; d2] ∧
    let c := fst (NewDevstatCollector ns) in
    let w' := snd (devstatCollector_Update p c w) in
    fst (devstatCollector_Update p c w) = Returned None ∧
    calls w' = calls w ++ [call_get_ndevs; call_get_stats 0; call_get_stats 1;
                           call_get_stats 2] ∧
    sent w' = sent w ++ device_samples c (device_stats p d0)
                     ++ device_samples c (device_stats p d1)
                     ++ device_samples c (device_stats p d2) ∧
    length (device_samples c (device_stats p d0)) = 10 ∧
    length (device_samples c (device_stats p d1)) = 10 ∧
    length (device_samples c (device_stats p d2)) = 10 ∧
    length (sent w') = length (sent w) + 30.
Proof.
  intros Hc. rewrite get_ndevs_run in Hc. simpl in Hc.
  destruct (calloc_fails (kernel w)) eqn:H1; [done|].
  destruct (getdevs (kernel w)) as [devs|] eqn:H2; [|done].
  injection Hc as Hc.
  destruct devs as [|d0 [|d1 [|d2 [|d3 devs]]]]; simpl in Hc; try lia.
  exists d0, d1, d2. split; [done|].
  cbv zeta. rewrite (devstat_Update_run p ns w [d0; d1; d2] H1 H2).
  unfold extend. cbn [fst snd calls sent flat_map].
  rewrite app_nil_r. repeat split.
  rewrite length_app. reflexivity.
Qed.

Lemma devstat_Update_three_devices_witness :
  ∃ d0 d1 d2,
    getdevs (kernel world_three_disks) = Some [d0; d1; d2] ∧
    let c := fst (NewDevstatCollector "node") in
    let w' := snd (devstatCollector_Update amd64 c world_three_disks) in
    fst (devstatCollector_Update amd64 c world_three_disks) = Returned None ∧
    calls w' = calls world_three_disks
               ++ [call_get_ndevs; call_get_stats 0; call_get_stats 1;
                   call_get_stats 2] ∧
    sent w' = sent world_three_disks
              ++ device_samples c (device_stats amd64 d0)
              ++ device_samples c (device_stats amd64 d1)
              ++ device_samples c (device_stats amd64 d2) ∧
    length (device_samples c (device_stats amd64 d0)) = 10 ∧
    length (device_samples c (device_stats amd64 d1)) = 10 ∧
    length (device_samples c (device_stats amd64 d2)) = 10 ∧
    length (sent w') = length (sent world_three_disks) + 30.
Proof.
  apply (devstat_Update_three_devices amd64 "node" world_three_disks).
  reflexivity.
Defined.

(** C6: when the device-count query returns -1 the collection returns the
    error "devstat_getdevs() failed", when it returns -2 the error
    "calloc() failed"; in both cases nothing is sent and the only external
    call is the enumeration itself: no per-device query is made. *)
Theorem devstat_Update_enumeration_failure p c w :
  (fst (_get_ndevs w) = Returned (-1)%Z →
   fst (devstatCollector_Update p c w)
     = Returned (Some (errorString "devstat_getdevs() failed")) ∧
   sent (snd (devstatCollector_Update p c w)) = sent w ∧
   calls (snd (devstatCollector_Update p c w)) = calls w ++ [call_get_ndevs]) ∧
  (fst (_get_ndevs w) = Returned (-2)%Z →
   fst (devstatCollector_Update p c w)
     = Returned (Some (errorString "calloc() failed")) ∧
   sent (snd (devstatCollector_Update p c w)) = sent w ∧
   calls (snd (devstatCollector_Update p c w)) = calls w ++ [call_get_ndevs]).
Proof.
  split; intros Hc.
  - rewrite (devstat_Update_fails p c w (-1) Hc) by auto.
    simpl. by rewrite app_nil_r.
  - rewrite (devstat_Update_fails p c w (-2) Hc) by auto.
    simpl. by rewrite app_nil_r.
Qed.

Lemma devstat_Update_enumeration_failure_witness :
  let c := fst (NewDevstatCollector "node") in
  (fst (devstatCollector_Update amd64 c world_getdevs_fails)
     = Returned (Some (errorString "devstat_getdevs() failed")) ∧
   sent (snd (devstatCollector_Update amd64 c world_getdevs_fails)) = [] ∧
   calls (snd (devstatCollector_Update amd64 c world_getdevs_fails))
     = [call_get_ndevs]) ∧
  (fst (devstatCollector_Update amd64 c world_calloc_fails)
     = Returned (Some (errorString "calloc() failed")) ∧
   sent (snd (devstatCollector_Update amd64 c world_calloc_fails)) = [] ∧
   calls (snd (devstatCollector_Update amd64 c world_calloc_fails))
     = [call_get_ndevs]).
Proof.
  split.
  - apply (devstat_Update_enumeration_failure amd64
             (fst (NewDevstatCollector "node")) world_getdevs_fails).
    reflexivity.
  - apply (devstat_Update_enumeration_failure amd64
             (fst (NewDevstatCollector "node")) world_calloc_fails).
    reflexivity.
Defined.

(** C8: on every successful device collection cycle, for every device, the
    "free" byte, transfer and duration counters are stored in the record
    that [_get_stats] returns, but no sample carries them: what is sent for
    a device is the ten samples below, none with the type "free", the bytes
    metric with the types "read" and "write" only, the transfers and
    duration metrics with "other", "read" and "write"; and the samples are
    the same whatever the three "free" counters are. *)
Theorem devstat_free_counters_are_not_sent p ns w :
  let c := fst (NewDevstatCollector ns) in
  fst (devstatCollector_Update p c w) = Returned None →
  ∃ devs,
    getdevs (kernel w) = Some devs ∧
    sent (snd (devstatCollector_Update p c w)) =
      sent w ++ flat_map (λ d, device_samples c (device_stats p d)) devs ∧
    (∀ i d, devs !! i = Some d →
       ∃ stats, fst (_get_stats p (Z.of_nat i) w) = Returned stats ∧
         Bytes.free (Stats.bytes stats) = total_bytes_free d ∧
         Transfers.free (Stats.transfers stats) = total_transfers_free d ∧
         Duration.free (Stats.duration stats)
           = double_of_long_double (total_duration_free d)) ∧
    (∀ stats,
       map (λ m, (metric_desc m, type_label m)) (device_samples c stats) =
       [ (desc (bytes c), Some "read"); (desc (bytes c), Some "write");
         (desc (transfers c), Some "other"); (desc (transfers c), Some "read");
         (desc (transfers c), Some "write");
         (desc (duration c), Some "other"); (desc (duration c), Some "read");
         (desc (duration c), Some "write");
         (desc (busyTime c), None); (desc (blocks c), None) ]) ∧
    desc (bytes c) ≠ desc (transfers c) ∧
    desc (bytes c) ≠ desc (duration c) ∧
    (∀ stats b t d,
       device_samples c (with_free stats b t d) = device_samples c stats).
Proof.
  intros c Hok.
  assert (calloc_fails (kernel w) = false ∧ ∃ devs, getdevs (kernel w) = Some devs)
    as [H1 [devs H2]].
  { unfold devstatCollector_Update in Hok.
    rewrite (bind_run _ _ _ _ _ _ (get_ndevs_run w)) in Hok.
    destruct (calloc_fails (kernel w)); [done|].
    destruct (getdevs (kernel w)); [eauto|done]. }
  exists devs. split; [done|]. repeat apply conj.
  - subst c. by rewrite (devstat_Update_run p ns w devs H1 H2).
  - intros i d Hd. exists (device_stats p d).
    by rewrite (get_stats_run p w devs i d H1 H2 Hd).
  - done.
  - intros H. apply (f_equal help) in H. discriminate H.
  - intros H. apply (f_equal help) in H. discriminate H.
  - done.
Qed.

Lemma devstat_free_counters_are_not_sent_witness :
  let c := fst (NewDevstatCollector "node") in
  ∃ devs,
    getdevs (kernel world_three_disks) = Some devs ∧
    sent (snd (devstatCollector_Update amd64 c world_three_disks)) =
      sent world_three_disks
      ++ flat_map (λ d, device_samples c (device_stats amd64 d)) devs ∧
    (∀ i d, devs !! i = Some d →
       ∃ stats, fst (_get_stats amd64 (Z.of_nat i) world_three_disks)
                = Returned stats ∧
         Bytes.free (Stats.bytes stats) = total_bytes_free d ∧
         Transfers.free (Stats.transfers stats) = total_transfers_free d ∧
         Duration.free (Stats.duration stats)
           = double_of_long_double (total_duration_free d)) ∧
    (∀ stats,
       map (λ m, (metric_desc m, type_label m)) (device_samples c stats) =
       [ (desc (bytes c), Some "read"); (desc (bytes c), Some "write");
         (desc (transfers c), Some "other"); (desc (transfers c), Some "read");
         (desc (transfers c), Some "write");
         (desc (duration c), Some "other"); (desc (duration c), Some "read");
         (desc (duration c), Some "write");
         (desc (busyTime c), None); (desc (blocks c), None) ]) ∧
    desc (bytes c) ≠ desc (transfers c) ∧
    desc (bytes c) ≠ desc (duration c) ∧
    (∀ stats b t d,
       device_samples c (with_free stats b t d) = device_samples c stats).
Proof.
  apply (devstat_free_counters_are_not_sent amd64 "node" world_three_disks).
  reflexivity.
Defined.

(** C4, as stated, fails on its last clause: native integers are signed,
    and a table of 40 bytes [0xff] (length 5 * 1 * 8, frequency 127)
    decodes to one CPU whose five values are -1/127, which are negative. *)
Lemma C4_negative_ticks_give_negative_seconds :
  length (replicate 40 xff) = 5 * 1 * sizeof_int amd64 ∧
  cpufreq clockinfo_amd64 = float64_of_int 127 ∧
  fst (getCPUTimes amd64 world_negative_ticks) =
  Returned ([ {| user := float64_div (float64_of_int (-1)) (float64_of_int 127);
                 nice := float64_div (float64_of_int (-1)) (float64_of_int 127);
                 sys := float64_div (float64_of_int (-1)) (float64_of_int 127);
                 intr := float64_div (float64_of_int (-1)) (float64_of_int 127);
                 idle := float64_div (float64_of_int (-1)) (float64_of_int 127) |} ],
            None) ∧
  float64_nonneg (float64_div (float64_of_int (-1)) (float64_of_int 127)) = false.
Proof. repeat split; reflexivity. Qed.

(** C4 (amended): for every raw [kern.cp_times] blob of length exactly
    [5 * cpuCount * sizeof(int)] bytes, with the conversion frequency
    positive, decoding produces exactly [cpuCount] CPU time samples; the
    [i]-th sample takes its five values from the 5 contiguous array
    positions starting at [5 * i], in the order user, nice, system,
    interrupt, idle; each value is the signed native integer at its
    position divided by the conversion frequency, and it is non-negative
    whenever that integer is non-negative. *)
Theorem getCPUTimes_groups_of_five p w clockb clock cpb cpuCount :
  sysctl (kernel w) "kern.clockrate" = inr clockb →
  load_clockinfo p clockb = Returned clock →
  (0 < stathz clock ∨ 0 < hz clock)%Z →
  sysctl (kernel w) "kern.cp_times" = inr cpb →
  length (elems cpb) = 5 * cpuCount * sizeof_int p →
  ∃ cpus,
    fst (getCPUTimes p w) = Returned (cpus, None) ∧
    length cpus = cpuCount ∧
    ∀ i, i < cpuCount →
      ∃ c, cpus !! i = Some c ∧
        user c = seconds_at p (cpufreq clock) (elems cpb) (5 * i) ∧
        nice c = seconds_at p (cpufreq clock) (elems cpb) (5 * i + 1) ∧
        sys c = seconds_at p (cpufreq clock) (elems cpb) (5 * i + 2) ∧
        intr c = seconds_at p (cpufreq clock) (elems cpb) (5 * i + 3) ∧
        idle c = seconds_at p (cpufreq clock) (elems cpb) (5 * i + 4) ∧
        ∀ k, k < 5 →
          seconds_at p (cpufreq clock) (elems cpb) (5 * i + k) =
            float64_div (float64_of_int (int_at p (elems cpb) (5 * i + k)))
                        (cpufreq clock) ∧
          ((0 ≤ int_at p (elems cpb) (5 * i + k))%Z →
           float64_nonneg (seconds_at p (cpufreq clock) (elems cpb) (5 * i + k))
             = true).
Proof.
  intros H1 H2 Hfreq H3 Hlen.
  pose proof (sizeof_int_pos p) as Hs.
  assert (length (elems cpb) / sizeof_int p = states * cpuCount) as Hn.
  { rewrite Hlen. apply Nat.div_mul. lia. }
  exists (map (cputime_of p (cpufreq clock) (elems cpb)) (seq 0 cpuCount)).
  split; [|split].
  - by rewrite (getCPUTimes_groups p w clockb clock cpb cpuCount).
  - by rewrite length_map, length_seq.
  - intros i Hi. exists (cputime_of p (cpufreq clock) (elems cpb) i).
    split.
    { rewrite list_lookup_fmap, lookup_seq_lt by done. reflexivity. }
    do 5 (split; [reflexivity|]).
    intros k Hk. split; [reflexivity|]. intros Hpos.
    destruct (load_clockinfo_range p clockb clock H2) as [Hsr Hhr].
    unfold seconds_at, cpufreq.
    destruct (Z.ltb_spec 0 (stathz clock)); apply seconds_nonneg; lia.
Qed.

Lemma getCPUTimes_groups_of_five_witness :
  ∃ cpus,
    fst (getCPUTimes amd64 world_negative_ticks) = Returned (cpus, None) ∧
    length cpus = 1 ∧
    ∀ i, i < 1 →
      ∃ c, cpus !! i = Some c ∧
        user c = seconds_at amd64 (cpufreq clockinfo_amd64) (replicate 40 xff) (5 * i) ∧
        nice c = seconds_at amd64 (cpufreq clockinfo_amd64) (replicate 40 xff) (5 * i + 1) ∧
        sys c = seconds_at amd64 (cpufreq clockinfo_amd64) (replicate 40 xff) (5 * i + 2) ∧
        intr c = seconds_at amd64 (cpufreq clockinfo_amd64) (replicate 40 xff) (5 * i + 3) ∧
        idle c = seconds_at amd64 (cpufreq clockinfo_amd64) (replicate 40 xff) (5 * i + 4) ∧
        ∀ k, k < 5 →
          seconds_at amd64 (cpufreq clockinfo_amd64) (replicate 40 xff) (5 * i + k) =
            float64_div (float64_of_int (int_at amd64 (replicate 40 xff) (5 * i + k)))
                        (cpufreq clockinfo_amd64) ∧
          ((0 ≤ int_at amd64 (replicate 40 xff) (5 * i + k))%Z →
           float64_nonneg
             (seconds_at amd64 (cpufreq clockinfo_amd64) (replicate 40 xff) (5 * i + k))
             = true).
Proof.
  apply (getCPUTimes_groups_of_five amd64 world_negative_ticks
           (Slice clockrate_amd64 (λ _, x00)) clockinfo_amd64
           (Slice (replicate 40 xff) (λ _, x00)) 1);
    try reflexivity.
  left. simpl. lia.
Defined.

(** C5: the conversion frequency is the statistics-clock frequency
    whenever it is greater than zero, and otherwise the base clock
    frequency; in particular, with [stathz = 0] and [hz = 120], every raw
    tick value [t] is converted to exactly [float64(t) / float64(120)]. *)
Theorem getCPUTimes_conversion_frequency p w clockb clock cpb :
  sysctl (kernel w) "kern.clockrate" = inr clockb →
  load_clockinfo p clockb = Returned clock →
  sysctl (kernel w) "kern.cp_times" = inr cpb →
  ((0 < stathz clock)%Z → cpufreq clock = float64_of_int (stathz clock)) ∧
  ((stathz clock ≤ 0)%Z → cpufreq clock = float64_of_int (hz clock)) ∧
  (∀ n, length (elems cpb) / sizeof_int p = states * n →
     fst (getCPUTimes p w) =
     Returned (map (cputime_of p (cpufreq clock) (elems cpb)) (seq 0 n), None)) ∧
  (stathz clock = 0%Z → hz clock = 120%Z →
   ∀ k, k < length (elems cpb) / sizeof_int p →
     decode_times p clock (elems cpb) !! k =
     Some (float64_div (float64_of_int (int_at p (elems cpb) k))
                       (float64_of_int 120))).
Proof.
  intros H1 H2 H3. repeat split.
  - intros Hs. unfold cpufreq. by destruct (Z.ltb_spec 0 (stathz clock)); [|lia].
  - intros Hs. unfold cpufreq. by destruct (Z.ltb_spec 0 (stathz clock)); [lia|].
  - intros n Hn. by rewrite (getCPUTimes_groups p w clockb clock cpb n).
  - intros Hs Hh k Hk.
    rewrite decode_times_spec, list_lookup_fmap, lookup_seq_lt by done.
    unfold cpufreq. rewrite Hs, Hh. reflexivity.
Qed.

Lemma getCPUTimes_conversion_frequency_witness :
  ((0 < stathz clockinfo_hz_120)%Z →
   cpufreq clockinfo_hz_120 = float64_of_int (stathz clockinfo_hz_120)) ∧
  ((stathz clockinfo_hz_120 ≤ 0)%Z →
   cpufreq clockinfo_hz_120 = float64_of_int (hz clockinfo_hz_120)) ∧
  (∀ n, length one_cpu / sizeof_int amd64 = states * n →
     fst (getCPUTimes amd64 world_hz_120) =
     Returned (map (cputime_of amd64 (cpufreq clockinfo_hz_120) one_cpu) (seq 0 n),
               None)) ∧
  (stathz clockinfo_hz_120 = 0%Z → hz clockinfo_hz_120 = 120%Z →
   ∀ k, k < length one_cpu / sizeof_int amd64 →
     decode_times amd64 clockinfo_hz_120 one_cpu !! k =
     Some (float64_div (float64_of_int (int_at amd64 one_cpu k))
                       (float64_of_int 120))).
Proof.
  apply (getCPUTimes_conversion_frequency amd64 world_hz_120
           (Slice (encode_le 4 120 ++ encode_le 4 8333 ++ encode_le 4 0
                   ++ encode_le 4 0 ++ encode_le 4 960) (λ _, x00))
           clockinfo_hz_120 (Slice one_cpu (λ _, x00)));
    reflexivity.
Defined.

(** C7, as stated, fails on its second case: a clock-rate answer of 16
    bytes, four short of the record, raises no error; the decoder reads the
    two frequencies it needs and returns the sample of the CPU. *)
Lemma C7_short_clockrate_is_decoded :
  sysctl (kernel world_short_clockrate) "kern.clockrate"
    = inr (Slice (take 16 clockrate_amd64) (λ _, x00)) ∧
  length (take 16 clockrate_amd64) = 16 ∧
  fst (getCPUTimes amd64 world_short_clockrate) =
  Returned ([ {| user := float64_div (float64_of_int 1) (float64_of_int 127);
                 nice := float64_div (float64_of_int 2) (float64_of_int 127);
                 sys := float64_div (float64_of_int 3) (float64_of_int 127);
                 intr := float64_div (float64_of_int 4) (float64_of_int 127);
                 idle := float64_div (float64_of_int 5) (float64_of_int 127) |} ],
            None).
Proof. repeat split; reflexivity. Qed.

(** C7 (amended): the CPU time decoder fails with the error of the query,
    and the collector sends zero samples and returns that error, whenever
    the clock-rate record query fails as a system call. *)
Theorem getCPUTimes_clockrate_query_fails x p c w e :
  sysctl (kernel w) "kern.clockrate" = inl e →
  fst (getCPUTimes p w) = Returned ([], Some e) ∧
  fst (statCollector_Update x p c w) = Returned (Some e) ∧
  sent (snd (statCollector_Update x p c w)) = sent w.
Proof.
  intros H.
  pose proof (getCPUTimes_clock_error p w e H) as Hrun.
  rewrite (stat_Update_error x p c w _ _ _ Hrun), Hrun. done.
Qed.

Lemma getCPUTimes_clockrate_query_fails_witness :
  fst (getCPUTimes amd64 world_sysctl_fails) = Returned ([], Some (Errno 2)) ∧
  fst (statCollector_Update freebsd_names amd64 (fst (NewStatCollector "node"))
         world_sysctl_fails) = Returned (Some (Errno 2)) ∧
  sent (snd (statCollector_Update freebsd_names amd64
               (fst (NewStatCollector "node")) world_sysctl_fails))
    = sent world_sysctl_fails.
Proof.
  apply (getCPUTimes_clockrate_query_fails freebsd_names amd64
           (fst (NewStatCollector "node")) world_sysctl_fails (Errno 2)).
  reflexivity.
Defined.








(** * Further properties of the two collectors *)

(** ** devstat: a whole cycle *)

Lemma device_samples_label c stats m :
  m ∈ device_samples c stats →
  head (labelValues m) = Some (Stats.device stats +:+ Itoa (Stats.unit stats)).
Proof.
  unfold device_samples. intros Hm.
  repeat (apply elem_of_cons in Hm as [->|Hm]; [reflexivity|]).
  by apply elem_of_nil in Hm.
Qed.

(** X1: when enumeration succeeds with any number of devices, a cycle
    returns no error, makes one enumeration and then exactly one per-device
    query for each index in increasing order, and sends ten samples per
    device, device after device in enumeration order, every sample of a
    device carrying the label made of its name and unit number. *)
Theorem devstat_Update_all_devices p ns w devs :
  calloc_fails (kernel w) = false →
  getdevs (kernel w) = Some devs →
  let c := fst (NewDevstatCollector ns) in
  let w' := snd (devstatCollector_Update p c w) in
  fst (devstatCollector_Update p c w) = Returned None ∧
  calls w' = calls w ++ call_get_ndevs :: stats_calls 0 (length devs) ∧
  sent w' = sent w ++ flat_map (λ d, device_samples c (device_stats p d)) devs ∧
  length (sent w') = length (sent w) + 10 * length devs ∧
  ∀ d m, m ∈ device_samples c (device_stats p d) →
         head (labelValues m) = Some (device_label d).
Proof.
  intros H1 H2 c w'. subst w' c.
  rewrite (devstat_Update_run p ns w devs H1 H2).
  unfold extend. cbn [fst snd calls sent]. repeat apply conj; try done.
  - rewrite length_app.
    rewrite (flat_map_constant_length (c:=10)) by done. lia.
  - intros d m Hm. by apply device_samples_label in Hm.
Qed.

Lemma devstat_Update_all_devices_witness :
  let c := fst (NewDevstatCollector "node") in
  let w' := snd (devstatCollector_Update amd64 c world_three_disks) in
  fst (devstatCollector_Update amd64 c world_three_disks) = Returned None ∧
  calls w' = calls world_three_disks ++ call_get_ndevs :: stats_calls 0 3 ∧
  sent w' = sent world_three_disks
            ++ flat_map (λ d, device_samples c (device_stats amd64 d))
                        [disk "ada" 0; disk "ada" 1; disk "cd" 0] ∧
  length (sent w') = length (sent world_three_disks) + 10 * 3 ∧
  ∀ d m, m ∈ device_samples c (device_stats amd64 d) →
         head (labelValues m) = Some (device_label d).
Proof.
  apply (devstat_Update_all_devices amd64 "node" world_three_disks
           [disk "ada" 0; disk "ada" 1; disk "cd" 0]); reflexivity.
Defined.

(** ** cpu: the failure paths of the decoder *)

Lemma stat_Update_panic x p c w msg w' :
  getCPUTimes p w = (Panicked msg, w') →
  statCollector_Update x p c w = (Panicked msg, w').
Proof.
  intros H. unfold statCollector_Update, mbind, M_bind. by rewrite H.
Qed.

(** X3: when the clock-rate query succeeds with a non-empty answer and the
    [kern.cp_times] query fails, the decoder returns no sample and the
    error of that query, after exactly the two queries; the collector
    returns the same error and sends nothing. *)
Theorem getCPUTimes_second_query_fails x p c w clockb e :
  sysctl (kernel w) "kern.clockrate" = inr clockb →
  elems clockb ≠ [] →
  sysctl (kernel w) "kern.cp_times" = inl e →
  fst (getCPUTimes p w) = Returned ([], Some e) ∧
  calls (snd (getCPUTimes p w)) =
    calls w ++ [call_SysctlRaw "kern.clockrate"; call_SysctlRaw "kern.cp_times"] ∧
  fst (statCollector_Update x p c w) = Returned (Some e) ∧
  sent (snd (statCollector_Update x p c w)) = sent w.
Proof.
  intros H1 Hne H3.
  destruct (load_clockinfo_nonempty p clockb Hne) as [clock H2].
  pose proof (getCPUTimes_times_error p w clockb clock e H1 H2 H3) as Hrun.
  rewrite (stat_Update_error x p c w _ _ _ Hrun), Hrun. done.
Qed.

Lemma getCPUTimes_second_query_fails_witness :
  fst (getCPUTimes amd64 world_cp_times_fails) = Returned ([], Some (Errno 12)) ∧
  calls (snd (getCPUTimes amd64 world_cp_times_fails)) =
    calls world_cp_times_fails
    ++ [call_SysctlRaw "kern.clockrate"; call_SysctlRaw "kern.cp_times"] ∧
  fst (statCollector_Update freebsd_names amd64 (fst (NewStatCollector "node"))
         world_cp_times_fails) = Returned (Some (Errno 12)) ∧
  sent (snd (statCollector_Update freebsd_names amd64
               (fst (NewStatCollector "node")) world_cp_times_fails))
    = sent world_cp_times_fails.
Proof.
  apply (getCPUTimes_second_query_fails freebsd_names amd64
           (fst (NewStatCollector "node")) world_cp_times_fails
           (Slice clockrate_amd64 (λ _, x00)) (Errno 12));
    [reflexivity | discriminate | reflexivity].
Defined.

(** X4: a clock-rate query that succeeds with no byte makes the decoder
    panic on [clockb[0]] before [kern.cp_times] is queried; the collector
    panics with it and sends nothing. *)
Theorem getCPUTimes_empty_clockrate x p c w clockb :
  sysctl (kernel w) "kern.clockrate" = inr clockb →
  elems clockb = [] →
  fst (getCPUTimes p w) = Panicked "index out of range [0] with length 0" ∧
  calls (snd (getCPUTimes p w)) = calls w ++ [call_SysctlRaw "kern.clockrate"] ∧
  fst (statCollector_Update x p c w)
    = Panicked "index out of range [0] with length 0" ∧
  sent (snd (statCollector_Update x p c w)) = sent w.
Proof.
  intros H1 Hnil.
  assert (load_clockinfo p clockb = Panicked "index out of range [0] with length 0")
    as H2 by (unfold load_clockinfo; by rewrite Hnil).
  pose proof (getCPUTimes_clock_panic p w clockb _ H1 H2) as Hrun.
  rewrite (stat_Update_panic x p c w _ _ Hrun), Hrun. done.
Qed.

Lemma getCPUTimes_empty_clockrate_witness :
  fst (getCPUTimes amd64 world_empty_answers)
    = Panicked "index out of range [0] with length 0" ∧
  calls (snd (getCPUTimes amd64 world_empty_answers))
    = calls world_empty_answers ++ [call_SysctlRaw "kern.clockrate"] ∧
  fst (statCollector_Update freebsd_names amd64 (fst (NewStatCollector "node"))
         world_empty_answers)
    = Panicked "index out of range [0] with length 0" ∧
  sent (snd (statCollector_Update freebsd_names amd64
               (fst (NewStatCollector "node")) world_empty_answers))
    = sent world_empty_answers.
Proof.
  apply (getCPUTimes_empty_clockrate freebsd_names amd64
           (fst (NewStatCollector "node")) world_empty_answers
           (Slice [] (λ _, x00))); reflexivity.
Defined.

(** X5: for every tick table the first loop converts exactly
    [len / sizeof(int)] values, and when this number is not a multiple of 5
    the second loop indexes [cpus] past its end: the decoder panics instead
    of returning, and so does the collector, which sends nothing. *)
Theorem getCPUTimes_partial_group_panics x p c w clockb clock cpb :
  sysctl (kernel w) "kern.clockrate" = inr clockb →
  load_clockinfo p clockb = Returned clock →
  sysctl (kernel w) "kern.cp_times" = inr cpb →
  ((length (elems cpb) / sizeof_int p) `mod` states) ≠ 0 →
  length (decode_times p clock (elems cpb)) = length (elems cpb) / sizeof_int p ∧
  fst (getCPUTimes p w) = Panicked "index out of range" ∧
  fst (statCollector_Update x p c w) = Panicked "index out of range" ∧
  sent (snd (statCollector_Update x p c w)) = sent w.
Proof.
  intros H1 H2 H3 Hn. split; [apply decode_times_length|].
  pose proof (getCPUTimes_decoded p w clockb clock cpb H1 H2 H3) as Hrun.
  rewrite decode_cpus_partial in Hrun by (by rewrite decode_times_length).
  change (Panicked ?m ≫= _) with (@Panicked (list cputime * option error) m) in Hrun.
  rewrite (stat_Update_panic x p c w _ _ Hrun), Hrun. done.
Qed.

Lemma getCPUTimes_partial_group_panics_witness :
  length (decode_times amd64 clockinfo_amd64 (one_cpu ++ encode_le 8 6))
    = length (one_cpu ++ encode_le 8 6) / sizeof_int amd64 ∧
  fst (getCPUTimes amd64 world_six_integers) = Panicked "index out of range" ∧
  fst (statCollector_Update freebsd_names amd64 (fst (NewStatCollector "node"))
         world_six_integers) = Panicked "index out of range" ∧
  sent (snd (statCollector_Update freebsd_names amd64
               (fst (NewStatCollector "node")) world_six_integers))
    = sent world_six_integers.
Proof.
  apply (getCPUTimes_partial_group_panics freebsd_names amd64
           (fst (NewStatCollector "node")) world_six_integers
           (Slice clockrate_amd64 (λ _, x00)) clockinfo_amd64
           (Slice (one_cpu ++ encode_le 8 6) (λ _, x00)));
    try reflexivity.
  vm_compute. lia.
Defined.

(** ** cpu: the decoder recovers the integers of the kernel *)

Lemma byte_of_to_N z : Z.of_N (Byte.to_N (byte_of z)) = (z `mod` 256)%Z.
Proof.
  pose proof (Z.mod_pos_bound z 256 ltac:(lia)) as Hb.
  unfold byte_of. destruct (Byte.of_N (Z.to_N (z `mod` 256))) as [b|] eqn:Hof.
  - apply Byte.to_of_N in Hof. simpl. rewrite Hof. apply Z2N.id. lia.
  - apply Byte.of_N_None_iff in Hof. lia.
Qed.

Lemma encode_le_S n z :
  encode_le (S n) z = byte_of z :: encode_le n (z / 256).
Proof.
  unfold encode_le. rewrite <- cons_seq. cbn [map].
  change (256 ^ Z.of_nat 0)%Z with 1%Z. rewrite Z.div_1_r. f_equal.
  rewrite <- seq_shift, map_map. apply map_ext. intros k.
  rewrite Nat2Z.inj_succ, Z.pow_succ_r by lia.
  by rewrite Z.div_div by lia.
Qed.

Lemma length_encode_le n z : length (encode_le n z) = n.
Proof. unfold encode_le. by rewrite length_map, length_seq. Qed.

Lemma length_encode_native p n z : length (encode_native p n z) = n.
Proof.
  unfold encode_native. destruct (endian p);
    by rewrite ?length_rev, length_encode_le.
Qed.

Lemma le_unsigned_encode_le n z :
  le_unsigned (encode_le n z) = (z `mod` 256 ^ Z.of_nat n)%Z.
Proof.
  revert z. induction n as [|n IH]; intros z.
  - simpl. by rewrite Z.mod_1_r.
  - rewrite encode_le_S. cbn [le_unsigned]. rewrite byte_of_to_N, IH.
    rewrite Nat2Z.inj_succ, Z.pow_succ_r by lia.
    rewrite Z.rem_mul_r by lia. reflexivity.
Qed.

Lemma native_unsigned_encode p n z :
  native_unsigned p (encode_native p n z) = (z `mod` 256 ^ Z.of_nat n)%Z.
Proof.
  unfold native_unsigned, encode_native. destruct (endian p).
  - apply le_unsigned_encode_le.
  - rewrite rev_involutive. apply le_unsigned_encode_le.
Qed.

(** Two's complement round trip, in either byte order. *)
Lemma native_signed_encode p n z :
  0 < n → fits_signed n z → native_signed p (encode_native p n z) = z.
Proof.
  intros Hn [Hlo Hhi]. unfold native_signed.
  rewrite native_unsigned_encode, length_encode_native.
  replace (256 ^ Z.of_nat n)%Z with (2 ^ (8 * Z.of_nat n))%Z
    by (rewrite Z.pow_mul_r by lia; reflexivity).
  assert (2 ^ (8 * Z.of_nat n) = 2 * 2 ^ (8 * Z.of_nat n - 1))%Z as Hpow.
  { rewrite <- Z.pow_succ_r by lia. f_equal. lia. }
  assert (0 < 2 ^ (8 * Z.of_nat n - 1))%Z as Hpos by (apply Z.pow_pos_nonneg; lia).
  destruct (Z.le_gt_cases 0 z) as [Hz|Hz].
  - rewrite Z.mod_small by lia.
    by destruct (Z.ltb_spec z (2 ^ (8 * Z.of_nat n - 1))); [|lia].
  - replace (z `mod` 2 ^ (8 * Z.of_nat n))%Z with (z + 2 ^ (8 * Z.of_nat n))%Z.
    2:{ apply Z.mod_unique with (-1)%Z; lia. }
    destruct (Z.ltb_spec (z + 2 ^ (8 * Z.of_nat n)) (2 ^ (8 * Z.of_nat n - 1))); lia.
Qed.

Lemma length_encode_table p ticks :
  length (encode_table p ticks) = length ticks * sizeof_int p.
Proof.
  unfold encode_table. apply flat_map_constant_length.
  intros t _. apply length_encode_native.
Qed.

Lemma int_at_encode_table p ticks k t :
  ticks !! k = Some t → fits_signed (sizeof_int p) t →
  int_at p (encode_table p ticks) k = t.
Proof.
  pose proof (sizeof_int_pos p) as Hs.
  revert k. induction ticks as [|t0 ticks IH]; intros k Hk Hfit; [done|].
  unfold int_at, load_int in *. cbn [encode_table flat_map].
  destruct k as [|k]; simpl in Hk.
  - injection Hk as ->. rewrite Nat.mul_0_l, drop_0.
    rewrite take_app_length' by (by rewrite length_encode_native).
    by apply native_signed_encode.
  - replace (S k * sizeof_int p) with (sizeof_int p + k * sizeof_int p) by lia.
    rewrite drop_app_add' by (by rewrite length_encode_native).
    by apply IH.
Qed.

Lemma lookup_nth_lt {A} (l : list A) (i : nat) (d : A) :
  i < length l → l !! i = Some (nth i l d).
Proof.
  intros Hi. by destruct (nth_lookup_or_length l i d) as [|]; [|lia].
Qed.

(** X6: decoding is the inverse of the kernel's layout.  When the tick
    table holds [5 * n] integers, each within the range of the native
    signed integer and stored in the byte order of the platform (little or
    big endian, 4 or 8 bytes), the decoder returns [n] samples whose fields
    are exactly these integers, in order, each divided by the conversion
    frequency. *)
Theorem getCPUTimes_recovers_ticks p w clockb clock mem ticks n :
  sysctl (kernel w) "kern.clockrate" = inr clockb →
  load_clockinfo p clockb = Returned clock →
  sysctl (kernel w) "kern.cp_times" = inr (Slice (encode_table p ticks) mem) →
  Forall (fits_signed (sizeof_int p)) ticks →
  length ticks = states * n →
  fst (getCPUTimes p w) =
  Returned (map (cputime_of_ticks (cpufreq clock) ticks) (seq 0 n), None).
Proof.
  intros H1 H2 H3 Hfit Hlen.
  pose proof (sizeof_int_pos p) as Hs.
  rewrite (getCPUTimes_groups p w clockb clock _ n H1 H2 H3).
  2:{ simpl. rewrite length_encode_table, Hlen. apply Nat.div_mul. lia. }
  simpl. do 2 f_equal. apply map_ext_in. intros j Hj. apply in_seq in Hj.
  assert (∀ i, i < 5 →
    int_at p (encode_table p ticks) (states * j + i) = nth (states * j + i) ticks 0%Z)
    as Hint.
  { intros i Hi. apply int_at_encode_table.
    - apply lookup_nth_lt. unfold states in *. lia.
    - eapply Forall_lookup_1; [exact Hfit|].
      apply lookup_nth_lt. unfold states in *. lia. }
  unfold cputime_of, cputime_of_ticks, seconds_at.
  rewrite <- (Nat.add_0_r (states * j)) at 1 6.
  rewrite !Hint by lia. by rewrite Nat.add_0_r.
Qed.

Lemma getCPUTimes_recovers_ticks_witness :
  fst (getCPUTimes amd64 world_five_cpus) =
  Returned (map (cputime_of_ticks (cpufreq clockinfo_amd64) five_cpus_ticks)
                (seq 0 5), None).
Proof.
  apply (getCPUTimes_recovers_ticks amd64 world_five_cpus
           (Slice clockrate_amd64 (λ _, x00)) clockinfo_amd64 (λ _, x00)
           five_cpus_ticks 5); try reflexivity.
  apply Forall_forall. intros t Ht.
  apply list_elem_of_fmap in Ht as (k & -> & Hk). apply elem_of_seq in Hk.
  unfold fits_signed.
  change (2 ^ (8 * Z.of_nat (sizeof_int amd64) - 1))%Z with 9223372036854775808%Z.
  lia.
Defined.


(** ** Labels tell the samples of a cycle apart *)

Lemma Itoa_inj n m : Itoa n = Itoa m → n = m.
Proof.
  unfold Itoa. intros H. apply DecimalZ.to_int_inj.
  assert (∀ z, Z.to_int z ≠ Decimal.Pos Decimal.Nil ∧
               Z.to_int z ≠ Decimal.Neg Decimal.Nil) as Hnil.
  { intros [|q|q]; simpl; split; try discriminate;
      intros [= Hq]; by apply DecimalPos.Unsigned.to_uint_nonnil in Hq. }
  destruct (Hnil n) as [Hn1 Hn2]. destruct (Hnil m) as [Hm1 Hm2].
  pose proof (NilZero.isi (Z.to_int n) Hn1 Hn2) as Hin.
  pose proof (NilZero.isi (Z.to_int m) Hm1 Hm2) as Him.
  rewrite H, Him in Hin. by injection Hin.
Qed.

Lemma device_samples_NoDup ns stats :
  NoDup (map identity (device_samples (fst (NewDevstatCollector ns)) stats)).
Proof.
  apply (NoDup_fmap_1 (λ i : Desc * list string, (help (fst i), snd i !! 1))).
  unfold device_samples, identity.
  cbn [map fmap list_fmap sample labelValues metric_desc lookup list_lookup
       fst snd NewDevstatCollector desc bytes transfers duration busyTime
       blocks help].
  apply (bool_decide_unpack _). by vm_compute.
Qed.

(** X9: distinct units of one driver get distinct device labels. *)
Theorem device_label_separates_units d1 d2 :
  device_name d1 = device_name d2 →
  unit_number d1 ≠ unit_number d2 →
  device_label d1 ≠ device_label d2.
Proof.
  unfold device_label. intros Hname Hunit Hlabel. rewrite Hname in Hlabel.
  apply String.app_inj in Hlabel. by apply Itoa_inj in Hlabel.
Qed.

Lemma device_label_separates_units_witness :
  device_label (disk "ada" 0) ≠ device_label (disk "ada" 1).
Proof.
  apply (device_label_separates_units (disk "ada" 0) (disk "ada" 1)).
  - reflexivity.
  - simpl. lia.
Defined.

(** X10: when the devices of the kernel have pairwise distinct labels, a
    successful devstat cycle never sends two samples with the same
    descriptor and label values. *)
Theorem devstat_samples_have_distinct_identities p ns w devs :
  calloc_fails (kernel w) = false →
  getdevs (kernel w) = Some devs →
  NoDup (map device_label devs) →
  ∃ samples,
    sent (snd (devstatCollector_Update p (fst (NewDevstatCollector ns)) w))
      = sent w ++ samples ∧
    length samples = 10 * length devs ∧
    NoDup (map identity samples).
Proof.
  intros H1 H2 Hnd.
  exists (flat_map (λ d, device_samples (fst (NewDevstatCollector ns))
                                        (device_stats p d)) devs).
  split; [by rewrite (devstat_Update_run p ns w devs H1 H2)|].
  split; [rewrite (flat_map_constant_length (c:=10)) by done; lia|].
  clear H1 H2. induction devs as [|d devs IH]; [constructor|].
  cbn [flat_map]. rewrite map_app.
  cbn [map] in Hnd. apply NoDup_cons in Hnd as [Hd Hnd].
  apply NoDup_app. split; [apply device_samples_NoDup|]. split; [|by apply IH].
  intros i Hi Hi'.
  apply list_elem_of_fmap in Hi as (m1 & -> & Hm1).
  apply list_elem_of_fmap in Hi' as (m2 & Heq & Hm2).
  apply list_elem_of_In, in_flat_map in Hm2 as (d' & Hd' & Hm2).
  apply list_elem_of_In in Hm2, Hd'.
  apply device_samples_label in Hm1. apply device_samples_label in Hm2.
  apply (f_equal snd) in Heq. simpl in Heq. rewrite Heq, Hm2 in Hm1.
  injection Hm1 as Hm1. apply Hd.
  apply list_elem_of_fmap. exists d'. split; [|done].
  unfold device_label. simpl in Hm1. by rewrite Hm1.
Qed.

Lemma devstat_samples_have_distinct_identities_witness :
  ∃ samples,
    sent (snd (devstatCollector_Update amd64 (fst (NewDevstatCollector "node"))
                 world_three_disks))
      = sent world_three_disks ++ samples ∧
    length samples = 10 * 3 ∧
    NoDup (map identity samples).
Proof.
  apply (devstat_samples_have_distinct_identities amd64 "node" world_three_disks
           [disk "ada" 0; disk "ada" 1; disk "cd" 0]); try reflexivity.
  apply (bool_decide_unpack _). by vm_compute.
Defined.

(** ** devstat: the narrowing conversions of [_get_stats] *)

Lemma binary_round_valid s m e :
  valid_binary 53 1024 (S754_finite s m e) = true →
  binary_round 53 1024 s m e = S754_finite s m e.
Proof.
  unfold valid_binary, bounded, canonical_mantissa.
  intros H. apply andb_prop in H as [Hc He]. apply Z.eqb_eq in Hc.
  assert (shr_fexp 53 1024 (Z.pos m) e loc_Exact =
          ({| shr_m := Z.pos m; shr_r := false; shr_s := false |}, e)) as Hshr.
  { unfold shr_fexp. cbn [Zdigits2]. rewrite Hc, Z.sub_diag. reflexivity. }
  unfold binary_round. rewrite Hc. unfold shl_align. rewrite Z.sub_diag.
  unfold binary_round_aux. rewrite Hshr. cbn [shr_m loc_of_shr_record round_nearest_even].
  rewrite Hshr. cbn [shr_m]. by rewrite He.
Qed.

(** X11: a duration that is already a binary64 value (normal or subnormal,
    a zero, an infinity or NaN) passes through the assignment of the
    [long double] to the [double] field unchanged. *)
Theorem double_of_long_double_exact x :
  valid_binary 53 1024 x = true → double_of_long_double x = x.
Proof.
  destruct x as [| | |s m e]; try done.
  intros H. by apply binary_round_valid.
Qed.

Lemma double_of_long_double_exact_witness :
  double_of_long_double (S754_finite false 6755399441055744 (-52))
  = S754_finite false 6755399441055744 (-52).
Proof.
  apply (double_of_long_double_exact (S754_finite false 6755399441055744 (-52))).
  reflexivity.
Defined.

(** X12: the busy time goes through a C [long]: a positive busy time
    [m * 2^e] with a fractional part ([e < 0]) whose integer part fits a
    [long] is truncated to the whole number of seconds [r], with
    [r ≤ m * 2^e < r + 1], and the busy-time sample of the device is
    [float64(r)]. *)
Theorem busy_time_is_truncated p ns d m e :
  total_busy_time d = S754_finite false m e →
  (e < 0)%Z →
  (Z.pos m / 2 ^ (- e) < 2 ^ (8 * Z.of_nat (sizeof_int p) - 1))%Z →
  let r := Stats.busyTime (device_stats p d) in
  (0 ≤ r)%Z ∧
  (r * 2 ^ (- e) ≤ Z.pos m < (r + 1) * 2 ^ (- e))%Z ∧
  metric_value <$> device_samples (fst (NewDevstatCollector ns)) (device_stats p d) !! 8
    = Some (float64_of_int r).
Proof.
  intros Hbusy He Hfit r. subst r.
  assert (0 < 2 ^ (- e))%Z as Hpow by (apply Z.pow_pos_nonneg; lia).
  assert (0 ≤ Z.pos m / 2 ^ (- e))%Z as Hq by (apply Z.div_pos; lia).
  assert (Stats.busyTime (device_stats p d) = (Z.pos m / 2 ^ (- e))%Z) as Hr.
  { cbn [device_stats Stats.busyTime]. rewrite Hbusy. unfold long_of_long_double.
    destruct (Z.leb_spec 0 e) as [|_]; [lia|].
    assert (0 < 2 ^ (8 * Z.of_nat (sizeof_int p) - 1))%Z
      by (apply Z.pow_pos_nonneg; pose proof (sizeof_int_pos p); lia).
    destruct (Z.leb_spec (- 2 ^ (8 * Z.of_nat (sizeof_int p) - 1)) (Z.pos m / 2 ^ (- e)));
      [|lia].
    by destruct (Z.ltb_spec (Z.pos m / 2 ^ (- e)) (2 ^ (8 * Z.of_nat (sizeof_int p) - 1)));
      [|lia]. }
  split; [by rewrite Hr|]. split; [|reflexivity].
  rewrite Hr.
  pose proof (Z.mul_div_le (Z.pos m) (2 ^ (- e)) Hpow).
  pose proof (Z.mul_succ_div_gt (Z.pos m) (2 ^ (- e)) Hpow).
  lia.
Qed.

Lemma busy_time_is_truncated_witness :
  let r := Stats.busyTime (device_stats amd64 (disk "ada" 0)) in
  (0 ≤ r)%Z ∧
  (r * 2 ^ (- (-1)) ≤ 7 < (r + 1) * 2 ^ (- (-1)))%Z ∧
  metric_value <$> device_samples (fst (NewDevstatCollector "node"))
                     (device_stats amd64 (disk "ada" 0)) !! 8
    = Some (float64_of_int r).
Proof.
  apply (busy_time_is_truncated amd64 "node" (disk "ada" 0) 7 (-1)).
  - reflexivity.
  - lia.
  - vm_compute. reflexivity.
Defined.

(** ** cpu: no NaN with a positive frequency *)






(** ** cpu: the unchecked load of the clock-rate record *)

(** X15: the two frequencies lie in the first 16 bytes of the clock-rate
    record.  When the answer of the kernel has at least 16 bytes, the
    memory that follows the slice, which the unchecked 20-byte load may
    read, has no influence on what the decoder returns. *)
Theorem getCPUTimes_ignores_memory_after_clockrate p w1 w2 bs mem1 mem2 cpb :
  16 ≤ length bs →
  sysctl (kernel w1) "kern.clockrate" = inr (Slice bs mem1) →
  sysctl (kernel w2) "kern.clockrate" = inr (Slice bs mem2) →
  sysctl (kernel w1) "kern.cp_times" = inr cpb →
  sysctl (kernel w2) "kern.cp_times" = inr cpb →
  fst (getCPUTimes p w1) = fst (getCPUTimes p w2).
Proof.
  intros Hlen H1 H2 H3 H4.
  destruct (load_clockinfo_nonempty p (Slice bs mem1)) as [c1 Hc1];
    [destruct bs; [simpl in Hlen; lia | done]|].
  destruct (load_clockinfo_nonempty p (Slice bs mem2)) as [c2 Hc2];
    [destruct bs; [simpl in Hlen; lia | done]|].
  rewrite (getCPUTimes_decoded p w1 _ c1 cpb H1 Hc1 H3).
  rewrite (getCPUTimes_decoded p w2 _ c2 cpb H2 Hc2 H4).
  unfold decode_times.
  by rewrite (load_clockinfo_frequencies p bs mem1 mem2 c1 c2 Hlen Hc1 Hc2).
Qed.

Lemma getCPUTimes_ignores_memory_after_clockrate_witness :
  fst (getCPUTimes amd64 world_short_clockrate) =
  fst (getCPUTimes amd64
         (boot {| calloc_fails := false; getdevs := Some [];
                  sysctl := λ name,
                    if String.eqb name "kern.clockrate"
                    then inr (Slice (take 16 clockrate_amd64) (λ _, xff))
                    else if String.eqb name "kern.cp_times"
                    then inr (Slice one_cpu (λ _, x00))
                    else inl (Errno 2) |})).
Proof.
  apply (getCPUTimes_ignores_memory_after_clockrate amd64 _ _
           (take 16 clockrate_amd64) (λ _, x00) (λ _, xff)
           (Slice one_cpu (λ _, x00))); reflexivity.
Defined.
